(** * dataIDE: the profiling engine, the chart suggester and the flattener

    A shallow embedding of [dataide/utils.py], [dataide/services/profile.py],
    [dataide/services/charts.py] and of their copies in [main.py].

    The Python code is a thin layer over pandas.  The part of pandas it
    calls is modelled in [Module pd] from the documented behaviour of the
    library (pandas 1.x / 2.x, the versions that still accept
    [infer_datetime_format]):

    - a cell is a Python scalar: [None], a float NaN (also what pandas puts
      where a row lacks a key), a [bool], an [int], a finite [float], a [str];
    - a finite float is written as the rational it denotes.  The percentiles
      and the correlations are computed as numpy and pandas compute them, in
      IEEE binary64 (round to nearest even) and in wrapping 64-bit integers,
      with the rounding, the overflow and the infinities that come with them;
      the counts, [null_pct], the mean and the variance are kept exact;
    - what pandas decides by parsing text (numbers in strings, dates, the
      [repr] of a float) is a parameter of the development, see [Parsers]. *)

From Stdlib Require Import Floats.PrimFloat Floats.SpecFloat Floats.FloatOps.
From Stdlib Require Import ZArith QArith Qround Qminmax List String Ascii Bool.
From Stdlib Require Import Lia Lqa Psatz.
From Stdlib Require Import Sorting.Mergesort Sorting.Sorted Sorting.Permutation.
From Stdlib Require Import Orders DecimalString.
Import ListNotations.

Local Open Scope string_scope.
Local Open Scope Z_scope.

(** ** Python scalars and dicts *)

Inductive pyval : Type :=
| PNone
| PNaN
| PBool (b : bool)
| PInt (z : Z)
| PFloat (q : Q)
| PStr (s : string).

(** A Python [dict] with string keys: insertion-ordered, keys unique.  The
    operations below keep keys unique when they start from unique keys. *)
Definition dict (V : Type) : Type := list (string * V).

Fixpoint dict_get {V : Type} (d : dict V) (k : string) : option V :=
  match d with
  | [] => None
  | (k', v) :: rest => if String.eqb k' k then Some v else dict_get rest k
  end.

(** [d[k] = v]: overwrite in place when the key exists, append otherwise. *)
Fixpoint dict_set {V : Type} (d : dict V) (k : string) (v : V) : dict V :=
  match d with
  | [] => [(k, v)]
  | (k', v') :: rest =>
      if String.eqb k' k then (k', v) :: rest else (k', v') :: dict_set rest k v
  end.

Definition dict_keys {V : Type} (d : dict V) : list string := map fst d.

Definition dict_has {V : Type} (d : dict V) (k : string) : bool :=
  match dict_get d k with Some _ => true | None => false end.

(** [d.update(e)] *)
Definition dict_update {V : Type} (d e : dict V) : dict V :=
  fold_left (fun acc kv => dict_set acc (fst kv) (snd kv)) e d.

Definition mem_str (k : string) (l : list string) : bool :=
  existsb (String.eqb k) l.

(** Truth value of an [Optional[str]]: [None] and [""] are false. *)
Definition truthy (o : option string) : bool :=
  match o with
  | Some s => negb (String.eqb s "")
  | None => false
  end.

(** ** Strings: [str.lower] and [sub in s] *)

Definition lower_ascii (c : ascii) : ascii :=
  let n := nat_of_ascii c in
  if andb (Nat.leb 65 n) (Nat.leb n 90) then ascii_of_nat (n + 32) else c.

(** [s.lower()], on the ASCII letters. *)
Fixpoint lower (s : string) : string :=
  match s with
  | EmptyString => EmptyString
  | String c rest => String (lower_ascii c) (lower rest)
  end.

(** [sub in s] *)
Fixpoint str_contains (sub s : string) : bool :=
  if String.prefix sub s then true
  else match s with
       | EmptyString => false
       | String _ rest => str_contains sub rest
       end.

(** [str(z)] for a Python [int]. *)
Definition str_of_int (z : Z) : string := NilEmpty.string_of_int (Z.to_int z).

(** ** Exceptions *)

Inductive exn : Type :=
| TypeError.

Inductive result (A : Type) : Type :=
| Ok (a : A)
| Raise (e : exn).
Arguments Ok {A} a.
Arguments Raise {A} e.

Definition bind {A B : Type} (c : result A) (k : A -> result B) : result B :=
  match c with
  | Ok a => k a
  | Raise e => Raise e
  end.

Notation "x <- c ;; k" := (bind c (fun x => k))
  (at level 61, c at next level, right associativity).

(** A [for] loop whose body may raise: the first exception leaves the loop. *)
Fixpoint for_each {A S : Type} (body : S -> A -> result S) (xs : list A) (s : S)
  : result S :=
  match xs with
  | [] => Ok s
  | x :: rest => s' <- body s x ;; for_each body rest s'
  end.

(** ** What pandas reads out of text

    [str_to_float] is [pd.to_numeric] on one string under [errors="coerce"]
    ([None] where the text is not a number); [float_repr] is Python's
    [str] of a float; [to_datetime] is [pd.to_datetime(..., errors="coerce")]
    on the cells of a column, one result per cell, a timestamp being its
    count of nanoseconds since the epoch; [date_iso] is
    [str(ts.date())]. *)
Class Parsers : Type := {
  str_to_float : string -> option Q;
  float_repr : Q -> string;
  to_datetime : list pyval -> list (option Z);
  date_iso : Z -> string
}.

(** A Python / numpy [float]: NaN, a finite value, or an infinity. *)
Inductive pyfloat : Type :=
| NaN
| Fin (q : Q)
| Inf (negative : bool).

(** IEEE [<=]: false as soon as one side is NaN. *)
Definition pyfloat_le (a b : pyfloat) : Prop :=
  match a, b with
  | NaN, _ | _, NaN => False
  | Inf true, _ | _, Inf false => True
  | Fin x, Fin y => (x <= y)%Q
  | _, _ => False
  end.

(** ** binary64

    [float] is the type of the IEEE binary64 numbers, with the operations
    of the processor: each one rounds to the nearest number, ties to the
    even one. *)

(** The conversion of an integer ([np.float64(z)]). *)
Definition float64_of_Z (z : Z) : float :=
  SF2Prim (binary_normalize prec emax z 0 false).

(** The float a cell holds: [q] itself where it is a binary64 number, and
    the quotient of its two terms otherwise. *)
Definition float64_of_Q (q : Q) : float :=
  let k := Z.log2 (Zpos (Qden q)) in
  if Zpos (Qden q) =? 2 ^ k
  then SF2Prim (binary_normalize prec emax (Qnum q) (- k) false)
  else PrimFloat.div (float64_of_Z (Qnum q)) (float64_of_Z (Zpos (Qden q))).

(** The value of a float, the sign of a zero dropped. *)
Definition pyfloat_of_float64 (f : float) : pyfloat :=
  match Prim2SF f with
  | S754_zero _ => Fin 0
  | S754_infinity s => Inf s
  | S754_nan => NaN
  | S754_finite s m e =>
      Fin (Qred (inject_Z (if s then Zneg m else Zpos m) * Qpower 2 e))
  end.

(** The float a decimal literal denotes: the binary64 number nearest to
    [q]. *)
Definition double (q : Q) : pyfloat := pyfloat_of_float64 (float64_of_Q q).

Definition nearest_double (q : Q) : Q :=
  match double q with
  | Fin v => v
  | _ => 0%Q
  end.

(** [np.isfinite] *)
Definition isfinite (f : float) : bool :=
  PrimFloat.ltb (PrimFloat.abs f) PrimFloat.infinity.

(** [np.rint]: the nearest integer, ties to the even one.  Below [2^52]
    adding and subtracting [2^52] rounds to it; from there on every float
    is an integer. *)
Definition rint (x : float) : float :=
  let two52 := float64_of_Z (2 ^ 52) in
  if PrimFloat.ltb (PrimFloat.abs x) two52 then
    if PrimFloat.ltb x PrimFloat.zero
    then PrimFloat.add (PrimFloat.sub x two52) two52
    else PrimFloat.sub (PrimFloat.add x two52) two52
  else x.

(** ** The part of pandas the program calls *)

Module pd.

Inductive dtype : Type :=
| object
| bool_
| int64
| uint64
| float64.

Definition dtype_eqb (a b : dtype) : bool :=
  match a, b with
  | object, object | bool_, bool_ | int64, int64
  | uint64, uint64 | float64, float64 => true
  | _, _ => false
  end.

Record Series : Type := mkSeries {
  s_dtype : dtype;
  s_values : list pyval
}.

Record DataFrameT : Type := mkDataFrame {
  df_len : nat;
  df_cols : dict Series
}.

Definition isna (v : pyval) : bool :=
  match v with
  | PNone | PNaN => true
  | _ => false
  end.

Definition notna (v : pyval) : bool := negb (isna v).

Definition is_str (v : pyval) : bool :=
  match v with PStr _ => true | _ => false end.
Definition is_bool (v : pyval) : bool :=
  match v with PBool _ => true | _ => false end.
Definition is_int (v : pyval) : bool :=
  match v with PInt _ => true | _ => false end.
Definition is_float (v : pyval) : bool :=
  match v with PFloat _ => true | _ => false end.
Definition is_nan (v : pyval) : bool :=
  match v with PNaN => true | _ => false end.

Definition int64_min : Z := - 2 ^ 63.
Definition int64_max : Z := 2 ^ 63 - 1.
Definition uint64_max : Z := 2 ^ 64 - 1.

Definition int_unboxable (v : pyval) : bool :=
  match v with
  | PInt z => andb (int64_min <=? z) (z <=? uint64_max)
  | _ => true
  end.
Definition int_above_int64 (v : pyval) : bool :=
  match v with PInt z => int64_max <? z | _ => false end.
Definition int_negative (v : pyval) : bool :=
  match v with PInt z => z <? 0 | _ => false end.

(** The dtype pandas infers for a column built from Python objects
    ([lib.maybe_convert_objects]): text makes the column [object]; booleans
    give [bool] only when nothing else is there; numbers give [int64] /
    [uint64] / [float64], a null among them forcing [float64]; a column of
    [None] alone stays [object]. *)
Definition infer_dtype (vs : list pyval) : dtype :=
  if existsb is_str vs then object
  else if existsb is_bool vs then
         (if forallb is_bool vs then bool_ else object)
  else if negb (forallb int_unboxable vs) then object
  else if andb (existsb int_above_int64 vs) (existsb int_negative vs) then object
  else if existsb is_float vs then float64
  else if existsb isna vs then
         (if orb (existsb is_int vs) (existsb is_nan vs) then float64 else object)
  else if existsb is_int vs then
         (if existsb int_above_int64 vs then uint64 else int64)
  else object.

(** Column names of [pd.DataFrame(list_of_dicts)]: the keys of the rows
    in first-seen order. *)
Definition add_key (acc : list string) (k : string) : list string :=
  if mem_str k acc then acc else (acc ++ [k])%list.

Definition union_keys (rows : list (dict pyval)) : list string :=
  fold_left (fun acc r => fold_left add_key (dict_keys r) acc) rows [].

(** A key missing from a row is NaN. *)
Definition cell (r : dict pyval) (c : string) : pyval :=
  match dict_get r c with
  | Some v => v
  | None => PNaN
  end.

(** In a numeric column [None] is stored as NaN. *)
Definition store (d : dtype) (v : pyval) : pyval :=
  match d, v with
  | object, _ => v
  | _, PNone => PNaN
  | _, _ => v
  end.

Definition column (rows : list (dict pyval)) (c : string) : Series :=
  let raw := map (fun r => cell r c) rows in
  let d := infer_dtype raw in
  mkSeries d (map (store d) raw).

(** [pd.DataFrame(rows)] *)
Definition DataFrame (rows : list (dict pyval)) : DataFrameT :=
  mkDataFrame (List.length rows)
              (map (fun c => (c, column rows c)) (union_keys rows)).

(** [len(df)] *)
Definition len (df : DataFrameT) : Z := Z.of_nat (df_len df).

(** [df.columns] *)
Definition columns (df : DataFrameT) : list string := dict_keys (df_cols df).

(** [df[c]], for [c] in [df.columns]. *)
Definition getitem (df : DataFrameT) (c : string) : Series :=
  match dict_get (df_cols df) c with
  | Some s => s
  | None => mkSeries object []
  end.

(** [pd.api.types.is_numeric_dtype]: numpy's number kinds and [bool]. *)
Definition is_numeric_dtype (s : Series) : bool :=
  match s_dtype s with
  | object => false
  | _ => true
  end.

(** [series.notna().sum()] *)
Definition notna_sum (s : Series) : Z :=
  Z.of_nat (List.length (filter notna (s_values s))).

(** [series.notna().any()] *)
Definition notna_any (s : Series) : bool := existsb notna (s_values s).

(** The number a cell stands for in a numeric column. *)
Definition num_of (v : pyval) : option Q :=
  match v with
  | PBool b => Some (if b then 1%Q else 0%Q)
  | PInt z => Some (inject_Z z)
  | PFloat q => Some q
  | _ => None
  end.

(** Python's [==] on scalars: numbers (and booleans) by value, text by
    characters. *)
Definition py_eqb (a b : pyval) : bool :=
  match a, b with
  | PStr s, PStr t => String.eqb s t
  | PNone, PNone => true
  | _, _ =>
      match num_of a, num_of b with
      | Some x, Some y => Qeq_bool x y
      | _, _ => false
      end
  end.

Fixpoint unique_by {A : Type} (eqb : A -> A -> bool) (l : list A) : list A :=
  match l with
  | [] => []
  | x :: rest => x :: filter (fun y => negb (eqb x y)) (unique_by eqb rest)
  end.

(** [series.nunique(dropna=True)] *)
Definition nunique (s : Series) : Z :=
  Z.of_nat (List.length (unique_by py_eqb (filter notna (s_values s)))).

Section WithParsers.
Context {P : Parsers}.

(** One cell under [pd.to_numeric(..., errors="coerce")]. *)
Definition coerce_cell (v : pyval) : pyval :=
  match v with
  | PNone | PNaN => PNaN
  | PBool b => PInt (if b then 1 else 0)
  | PInt z => PInt z
  | PFloat q => PFloat q
  | PStr t => match str_to_float t with
              | Some q => PFloat q
              | None => PNaN
              end
  end.

(** [pd.to_numeric(s, errors="coerce")]: a numeric (or [bool]) column is
    returned as it is; an [object] column is converted cell by cell. *)
Definition to_numeric (s : Series) : Series :=
  match s_dtype s with
  | object =>
      let vs := map coerce_cell (s_values s) in
      mkSeries (if existsb (fun v => orb (is_float v) (is_nan v)) vs
                then float64 else int64) vs
  | _ => s
  end.

(** [str(v)] as [astype(str)] applies it to each cell of an [object]
    column, nulls included. *)
Definition str_of (v : pyval) : string :=
  match v with
  | PNone => "None"
  | PNaN => "nan"
  | PBool true => "True"
  | PBool false => "False"
  | PInt z => str_of_int z
  | PFloat q => float_repr q
  | PStr s => s
  end.

(** [series.astype(str)] *)
Definition astype_str (s : Series) : list string := map str_of (s_values s).

End WithParsers.

(** *** Descriptive statistics of a numeric column

    All of them skip the nulls (pandas' [skipna=True]). *)

Module QOrder <: TotalLeBool.
Definition t : Type := Q.
Definition leb (x y : Q) : bool := Qle_bool x y.
Lemma leb_total (x y : Q) : leb x y = true \/ leb y x = true.
Proof.
  unfold leb. rewrite !Qle_bool_iff.
  destruct (Qlt_le_dec x y) as [H | H]; [left; apply Qlt_le_weak, H | right; exact H].
Qed.
End QOrder.

Module QSort := Sort QOrder.

(** The non-null cells of a numeric column, in row order. *)
Definition valid (s : Series) : list Q :=
  flat_map (fun v => match num_of v with Some q => [q] | None => [] end)
           (s_values s).

Definition Qsum (l : list Q) : Q := fold_right Qplus 0%Q l.

(** [s.min()] *)
Definition min (s : Series) : pyfloat :=
  match valid s with
  | [] => NaN
  | x :: rest => Fin (fold_left Qmin rest x)
  end.

(** [s.max()] *)
Definition max (s : Series) : pyfloat :=
  match valid s with
  | [] => NaN
  | x :: rest => Fin (fold_left Qmax rest x)
  end.

(** Subtraction in [int64] and in [uint64]: the result wraps. *)
Definition int64_wrap (z : Z) : Z := (z + 2 ^ 63) mod 2 ^ 64 - 2 ^ 63.
Definition uint64_wrap (z : Z) : Z := z mod 2 ^ 64.

(** numpy's [_lerp] on two cells [a], [b] of a column of dtype [d], at the
    weight [t]: [diff_b_a = subtract(b, a)] is computed in the dtype of the
    column, then [add(a, diff_b_a * t)], or, where [t >= 0.5],
    [subtract(b, diff_b_a * (1 - t))], in binary64. *)
Definition _lerp (d : dtype) (a b : Q) (t : float) : float :=
  let diff_b_a :=
    match d with
    | int64 => float64_of_Z (int64_wrap (Qfloor b - Qfloor a))
    | uint64 => float64_of_Z (uint64_wrap (Qfloor b - Qfloor a))
    | _ => PrimFloat.sub (float64_of_Q b) (float64_of_Q a)
    end in
  if PrimFloat.ltb t (float64_of_Q (1 # 2))
  then PrimFloat.add (float64_of_Q a) (PrimFloat.mul diff_b_a t)
  else PrimFloat.sub (float64_of_Q b)
                     (PrimFloat.mul diff_b_a (PrimFloat.sub PrimFloat.one t)).

(** [np.percentile(values, 100 * q)], method ["linear"], on the non-null
    values: the virtual index is [(n - 1) * q], its two neighbours in the
    sorted values are [previous] and [next], the weight [gamma] is its
    fractional part, which is exact for the quarters the program asks for. *)
Definition percentile (d : dtype) (vs : list Q) (q : Q) : float :=
  let sorted := QSort.sort vs in
  let virtual_index := (inject_Z (Z.of_nat (List.length vs) - 1) * q)%Q in
  let previous := Z.to_nat (Qfloor virtual_index) in
  let next := Nat.min (previous + 1) (List.length sorted - 1) in
  let gamma := (virtual_index - inject_Z (Qfloor virtual_index))%Q in
  _lerp d (nth previous sorted 0%Q) (nth next sorted 0%Q) (float64_of_Q gamma).

(** [s.quantile(q)], [interpolation="linear"].  numpy interpolates with a
    subtraction, which it refuses on booleans: on a non-empty [bool] column
    the call raises [TypeError]. *)
Definition quantile (s : Series) (q : Q) : result pyfloat :=
  match valid s with
  | [] => Ok NaN
  | vs =>
      match s_dtype s with
      | bool_ => Raise TypeError
      | d => Ok (pyfloat_of_float64 (percentile d vs q))
      end
  end.

(** [s.mean()] *)
Definition mean (s : Series) : pyfloat :=
  match valid s with
  | [] => NaN
  | vs => Fin (Qsum vs / inject_Z (Z.of_nat (List.length vs)))
  end.

(** The population variance, whose square root is [s.std(ddof=0)]. *)
Definition var0 (s : Series) : pyfloat :=
  match valid s with
  | [] => NaN
  | vs =>
      let n := inject_Z (Z.of_nat (List.length vs)) in
      let m := (Qsum vs / n)%Q in
      Fin (Qsum (map (fun x => (x - m) * (x - m))%Q vs) / n)
  end.

(** *** Columns of timestamps: [dt.notna().any()], [dt.min()], [dt.max()] *)
Definition dt_valid (dt : list (option Z)) : list Z :=
  flat_map (fun o => match o with Some t => [t] | None => [] end) dt.

Definition dt_notna_any (dt : list (option Z)) : bool :=
  existsb (fun o => match o with Some _ => true | None => false end) dt.

Definition dt_min (dt : list (option Z)) : Z :=
  match dt_valid dt with
  | [] => 0
  | t :: rest => fold_left Z.min rest t
  end.

Definition dt_max (dt : list (option Z)) : Z :=
  match dt_valid dt with
  | [] => 0
  | t :: rest => fold_left Z.max rest t
  end.

(** *** [value_counts] *)

Fixpoint count_str (k : string) (l : list string) : Z :=
  match l with
  | [] => 0
  | x :: rest => (if String.eqb k x then 1 else 0) + count_str k rest
  end.

(** Distinct values with their number of occurrences, in first-seen order. *)
Definition tally (l : list string) : dict Z :=
  map (fun k => (k, count_str k l)) (unique_by String.eqb l).

Fixpoint insert_desc (kv : string * Z) (l : dict Z) : dict Z :=
  match l with
  | [] => [kv]
  | kv' :: rest =>
      if snd kv' <=? snd kv then kv :: kv' :: rest
      else kv' :: insert_desc kv rest
  end.

(** [value_counts(dropna=True)] of a column of strings: descending counts.
    pandas leaves the order among equal counts open; here first-seen order
    is kept. *)
Definition value_counts (l : list string) : dict Z :=
  fold_right insert_desc [] (tally l).

(** [.head(n)] *)
Definition head {A : Type} (n : nat) (l : list A) : list A := firstn n l.

(** *** Pearson correlation ([DataFrame.corr]) and [round] *)

(** Rows where both columns are non-null (pairwise-complete observations). *)
Fixpoint complete_pairs (xs ys : list pyval) : list (Q * Q) :=
  match xs, ys with
  | x :: xs', y :: ys' =>
      match num_of x, num_of y with
      | Some a, Some b => (a, b) :: complete_pairs xs' ys'
      | _, _ => complete_pairs xs' ys'
      end
  | _, _ => []
  end.

(** The accumulators of [libalgos.nancorr] for one pair of columns
    (Welford's method). *)
Record welford : Type := mkWelford {
  nobs : Z;
  meanx : float;
  meany : float;
  ssqdm_x : float;
  ssqdm_y : float;
  covxy : float
}.

(** One pass of the inner loop, on a row where both cells are finite. *)
Definition observe (w : welford) (vx vy : float) : welford :=
  let nobs' := nobs w + 1 in
  let dx := PrimFloat.sub vx (meanx w) in
  let dy := PrimFloat.sub vy (meany w) in
  let meanx' :=
    PrimFloat.add (meanx w)
      (PrimFloat.mul (PrimFloat.div PrimFloat.one (float64_of_Z nobs')) dx) in
  let meany' :=
    PrimFloat.add (meany w)
      (PrimFloat.mul (PrimFloat.div PrimFloat.one (float64_of_Z nobs')) dy) in
  mkWelford nobs' meanx' meany'
            (PrimFloat.add (ssqdm_x w) (PrimFloat.mul (PrimFloat.sub vx meanx') dx))
            (PrimFloat.add (ssqdm_y w) (PrimFloat.mul (PrimFloat.sub vy meany') dy))
            (PrimFloat.add (covxy w) (PrimFloat.mul (PrimFloat.sub vx meanx') dy)).

(** One cell of [libalgos.nancorr] ([minp = 1]) as pandas 1.x and 2.x have
    it, in binary64: the rows
    where both columns are finite are accumulated in row order; the cell is
    NaN without such a row or when the divisor
    [sqrt (ssqdm_x * ssqdm_y)] is zero, and [covxy / divisor] otherwise. *)
Definition pearson (x y : Series) : float :=
  let w :=
    fold_left (fun w p =>
                 let vx := float64_of_Q (fst p) in
                 let vy := float64_of_Q (snd p) in
                 if andb (isfinite vx) (isfinite vy) then observe w vx vy else w)
              (complete_pairs (s_values x) (s_values y))
              (mkWelford 0 PrimFloat.zero PrimFloat.zero PrimFloat.zero
                         PrimFloat.zero PrimFloat.zero) in
  if nobs w <? 1 then PrimFloat.nan
  else
    let divisor := PrimFloat.sqrt (PrimFloat.mul (ssqdm_x w) (ssqdm_y w)) in
    if negb (PrimFloat.eqb divisor PrimFloat.zero)
    then PrimFloat.div (covxy w) divisor
    else PrimFloat.nan.

Fixpoint enumerate_from {A : Type} (i : nat) (l : list A) : list (nat * A) :=
  match l with
  | [] => []
  | x :: rest => (i, x) :: enumerate_from (S i) rest
  end.

(** Python's [enumerate] *)
Definition enumerate {A : Type} (l : list A) : list (nat * A) :=
  enumerate_from 0 l.

(** [nancorr] computes the cell [(xi, yi)] for [yi <= xi] and stores it at
    [(xi, yi)] and at [(yi, xi)]. *)
Definition corr_cell (ia jb : nat * (string * Series)) : float :=
  if (fst jb <=? fst ia)%nat
  then pearson (snd (snd ia)) (snd (snd jb))
  else pearson (snd (snd jb)) (snd (snd ia)).

(** [df.corr()]: labelled rows of labelled cells. *)
Definition corr (cols : dict Series) : dict (dict float) :=
  map (fun ia =>
         (fst (snd ia),
          map (fun jb => (fst (snd jb), corr_cell ia jb)) (enumerate cols)))
      (enumerate cols).

(** numpy's [round(c, decimals)], [decimals >= 0]:
    [rint (c * 10^decimals) / 10^decimals], in binary64. *)
Definition round_coef (decimals : Z) (c : float) : pyfloat :=
  let power_of_ten := float64_of_Z (10 ^ decimals) in
  pyfloat_of_float64
    (PrimFloat.div (rint (PrimFloat.mul c power_of_ten)) power_of_ten).

(** [.round(decimals)] on the frame of coefficients. *)
Definition round (decimals : Z) (m : dict (dict float)) : dict (dict pyfloat) :=
  map (fun row => (fst row, map (fun c => (fst c, round_coef decimals (snd c)))
                                (snd row))) m.

(** [.to_dict()]: column label -> row label -> value. *)
Definition to_dict {A : Type} (m : dict (dict A)) : dict (dict A) :=
  map (fun c =>
         (c, flat_map (fun row => match dict_get (snd row) c with
                                  | Some v => [(fst row, v)]
                                  | None => []
                                  end) m))
      (match m with
       | [] => []
       | row :: _ => dict_keys (snd row)
       end).

End pd.

(** ** The values the program builds *)

(** A value stored in a column profile. *)
Inductive stat : Type :=
| SInt (n : Z)
| SFloat (f : pyfloat)
| SSqrt (f : pyfloat)          (* the float square root of [f] *)
| SStr (s : string)
| SCounts (d : dict Z).

(** The per-table dict of a profiling summary; a key that is not in the
    dict is [None] here. *)
Record TableInfo : Type := mkTableInfo {
  row_count : option Z;
  columns : option (dict (dict stat));
  correlation_pearson : option (dict (dict pyfloat))
}.

(** One record of the flattened profile. *)
Inductive rvalue : Type :=
| VStat (s : stat)
| VCorr (f : pyfloat).

Record FlatRow : Type := mkFlatRow {
  level : string;
  table : string;
  column : string;
  metric : string;
  value : rvalue
}.

(** The pydantic models of [dataide/schemas.py]; [main.py] (lines 19-43)
    declares the same three classes, field for field. *)
Record ColumnMeta : Type := mkColumnMeta {
  cm_name : string;
  cm_dtype : string;
  cm_description : option string;
  cm_nullable : bool;
  cm_pii : option string;
  cm_semantics : option string
}.

Record TableSchema : Type := mkTableSchema {
  ts_name : string;
  ts_description : option string;
  ts_primary_key : option (list string);
  ts_foreign_keys : option (list (dict string));
  ts_columns : list ColumnMeta
}.

Record SuggestedChart : Type := mkSuggestedChart {
  sc_title : string;
  sc_kind : string;
  sc_table : string;
  sc_x : string;
  sc_y : option string;
  sc_note : option string
}.

(** ** The package [dataide] *)

Module dataide.

Section WithParsers.
Context {P : Parsers}.

(** [dataide/utils.py] *)
Definition to_dataframe (rows : list (dict pyval)) : pd.DataFrameT :=
  pd.DataFrame rows.

Definition coerce_numeric (series : pd.Series) : pd.Series :=
  pd.to_numeric series.

Definition coerce_datetime (series : pd.Series) : list (option Z) :=
  to_datetime (pd.s_values series).

(** [dataide/services/profile.py] *)

Definition numeric_hints : list string :=
  ["int"; "integer"; "bigint"; "float"; "double"; "decimal"; "number"].

(** [{t.name: t for t in tables}] *)
Definition schema_by_table (tables : list TableSchema) : dict TableSchema :=
  fold_left (fun acc t => dict_set acc (ts_name t) t) tables [].

(** Lines 32-37: the dtype declared for the column, lower-cased. *)
Definition hinted_dtype (t_schema : option TableSchema) (column_name : string)
  : option string :=
  match t_schema with
  | None => None
  | Some t =>
      match find (fun column_meta => String.eqb (cm_name column_meta) column_name)
                 (ts_columns t) with
      | Some column_meta => Some (lower (cm_dtype column_meta))
      | None => None
      end
  end.

Definition hint_is_numeric (hint : option string) : bool :=
  match hint with
  | Some h => mem_str h numeric_hints
  | None => false
  end.

Definition hint_is_date (hint : option string) : bool :=
  match hint with
  | Some h => andb (negb (String.eqb h "")) (str_contains "date" h)
  | None => false
  end.

(** Lines 42-50: the dict passed to [stats.update]. *)
Definition numeric_block (numeric : pd.Series) : result (dict stat) :=
  let mn := pd.min numeric in
  p25 <- pd.quantile numeric (1 # 4) ;;
  p50 <- pd.quantile numeric (1 # 2) ;;
  p75 <- pd.quantile numeric (3 # 4) ;;
  Ok [("min", SFloat mn);
      ("p25", SFloat p25);
      ("p50", SFloat p50);
      ("p75", SFloat p75);
      ("max", SFloat (pd.max numeric));
      ("mean", SFloat (pd.mean numeric));
      ("std", SSqrt (pd.var0 numeric))].

(** Lines 24-30: the counts every column profile starts from. *)
Definition base_stats (df : pd.DataFrameT) (series : pd.Series) : dict stat :=
  let non_null_count := pd.notna_sum series in
  [("non_null", SInt non_null_count);
   ("nulls", SInt (pd.len df - non_null_count));
   ("null_pct",
    SFloat (Fin (if pd.len df =? 0 then 0%Q
                 else (inject_Z (pd.len df - non_null_count)
                       / inject_Z (Z.max 1 (pd.len df)))%Q)));
   ("distinct", SInt (pd.nunique series))].

(** Lines 39-50: the numeric summary. *)
Definition add_numeric (hint : option string) (series : pd.Series)
           (stats : dict stat) : result (dict stat) :=
  if orb (hint_is_numeric hint) (pd.is_numeric_dtype series) then
    let numeric := coerce_numeric series in
    if pd.notna_any numeric then
      block <- numeric_block numeric ;;
      Ok (dict_update stats block)
    else Ok stats
  else Ok stats.

(** Lines 52-58: the date range. *)
Definition add_dates (hint : option string) (column_name : string)
           (series : pd.Series) (stats : dict stat) : dict stat :=
  if orb (hint_is_date hint) (str_contains "date" (lower column_name)) then
    let dt := coerce_datetime series in
    if pd.dt_notna_any dt then
      dict_update stats [("min_date", SStr (date_iso (pd.dt_min dt)));
                         ("max_date", SStr (date_iso (pd.dt_max dt)))]
    else stats
  else stats.

(** Lines 60-63: the most frequent values. *)
Definition add_top_values (series : pd.Series) (stats : dict stat) : dict stat :=
  if pd.dtype_eqb (pd.s_dtype series) pd.object then
    let value_counts := pd.head 5 (pd.value_counts (pd.astype_str series)) in
    if (0 <? Z.of_nat (List.length value_counts)) then
      dict_set stats "top_values" (SCounts value_counts)
    else stats
  else stats.

(** Lines 23-65: the body of the loop over [df.columns]. *)
Definition column_stats (df : pd.DataFrameT) (t_schema : option TableSchema)
           (column_name : string) : result (dict stat) :=
  let series := pd.getitem df column_name in
  let stats := base_stats df series in
  let hint := hinted_dtype t_schema column_name in
  stats <- add_numeric hint series stats ;;
  Ok (add_top_values series (add_dates hint column_name series stats)).

(** Lines 67-71: the frame of the numeric-coercible columns. *)
Definition numeric_df (df : pd.DataFrameT) : dict pd.Series :=
  fold_left (fun acc col =>
               let numeric_series := coerce_numeric (pd.getitem df col) in
               if pd.notna_any numeric_series
               then dict_set acc col numeric_series
               else acc)
            (pd.columns df) [].

(** Lines 14-75: the body of the loop over [sample_rows.items()]; the
    result is the value stored at [profile[table_name]]. *)
Definition table_profile (t_schema : option TableSchema) (rows : list (dict pyval))
  : result TableInfo :=
  let df := to_dataframe rows in
  if pd.len df =? 0 then
    Ok (mkTableInfo (Some (pd.len df)) (Some []) None)
  else
    cols <- for_each (fun acc column_name =>
                        stats <- column_stats df t_schema column_name ;;
                        Ok (dict_set acc column_name stats))
                     (pd.columns df) [] ;;
    let ndf := numeric_df df in
    Ok (mkTableInfo (Some (pd.len df)) (Some cols)
          (if (2 <=? List.length ndf)%nat
           then Some (pd.to_dict (pd.round 3 (pd.corr ndf)))
           else None)).

Definition compute_profile (sample_rows : dict (list (dict pyval)))
           (tables : list TableSchema) : result (dict TableInfo) :=
  let by_table := schema_by_table tables in
  for_each (fun profile item =>
              table_info <- table_profile (dict_get by_table (fst item)) (snd item) ;;
              Ok (dict_set profile (fst item) table_info))
           sample_rows [].

(** Lines 88-95 of [profile_to_rows]: the upper triangle of the block. *)
Definition correlation_rows (tname : string) (corr : dict (dict pyfloat))
  : list FlatRow :=
  let cols := dict_keys corr in
  flat_map
    (fun ia =>
       flat_map
         (fun jb =>
            if (fst jb <=? fst ia)%nat then []
            else
              match dict_get (match dict_get corr (snd ia) with
                              | Some row => row
                              | None => []
                              end) (snd jb) with
              | Some val =>
                  [mkFlatRow "correlation" tname "" (snd ia ++ "~" ++ snd jb)
                             (VCorr val)]
              | None => []
              end)
         (pd.enumerate cols))
    (pd.enumerate cols).

Definition column_rows (tname : string) (cols : dict (dict stat)) : list FlatRow :=
  flat_map (fun c =>
              map (fun kv => mkFlatRow "column" tname (fst c) (fst kv) (VStat (snd kv)))
                  (snd c))
           cols.

Definition table_rows (tname : string) (tinfo : TableInfo) : list FlatRow :=
  ([mkFlatRow "table" tname "" "row_count"
              (VStat (SInt (match row_count tinfo with Some n => n | None => 0 end)))]
   ++ column_rows tname (match columns tinfo with Some c => c | None => [] end)
   ++ match correlation_pearson tinfo with
      | Some (r :: corr) => correlation_rows tname (r :: corr)
      | _ => []
      end)%list.

Definition profile_to_rows (profile : dict TableInfo) : list FlatRow :=
  flat_map (fun item => table_rows (fst item) (snd item)) profile.

(** [dataide/services/charts.py] *)

Definition first_numeric (df : pd.DataFrameT) : option string :=
  find (fun column => pd.notna_any (coerce_numeric (pd.getitem df column)))
       (pd.columns df).

Definition first_categorical (df : pd.DataFrameT) : option string :=
  find (fun column =>
          andb (pd.dtype_eqb (pd.s_dtype (pd.getitem df column)) pd.object)
               (Z.of_nat (List.length
                            (pd.unique_by String.eqb
                               (pd.astype_str (pd.getitem df column)))) <=? 30))
       (pd.columns df).

Definition first_date (df : pd.DataFrameT) : option string :=
  find (fun c => andb (str_contains "date" (lower c))
                      (pd.dt_notna_any (coerce_datetime (pd.getitem df c))))
       (pd.columns df).

(** Lines 13-29: what one table appends to [charts]. *)
Definition table_charts (table_name : string) (rows : list (dict pyval))
  : list SuggestedChart :=
  let df := to_dataframe rows in
  let hist :=
    match first_numeric df with
    | Some column =>
        [mkSuggestedChart (table_name ++ "." ++ column ++ " — distribution")
                          "hist" table_name column None None]
    | None => []
    end in
  let bar :=
    match first_categorical df with
    | Some column =>
        [mkSuggestedChart (table_name ++ "." ++ column ++ " — top categories")
                          "bar" table_name column None None]
    | None => []
    end in
  let date_col := first_date df in
  let num_col := first_numeric df in
  let line :=
    match date_col, num_col with
    | Some d, Some n =>
        if andb (truthy date_col) (truthy num_col) then
          [mkSuggestedChart (table_name ++ ": " ++ n ++ " over " ++ d)
                            "line" table_name d (Some n) None]
        else []
    | _, _ => []
    end in
  (hist ++ bar ++ line)%list.

Definition suggest_charts (sample_rows : dict (list (dict pyval)))
  : list SuggestedChart :=
  firstn 6
    (fold_left (fun charts item =>
                  match snd item with
                  | [] => charts
                  | _ => (charts ++ table_charts (fst item) (snd item))%list
                  end)
               sample_rows []).

End WithParsers.

End dataide.

(** ** The single-file application [main.py]

    Lines 359-496 repeat the three private helpers and the three functions
    of the package, with other local names. *)

Module main.

Section WithParsers.
Context {P : Parsers}.

Definition _to_df (rows : list (dict pyval)) : pd.DataFrameT :=
  pd.DataFrame rows.

Definition _coerce_numeric (s : pd.Series) : pd.Series :=
  pd.to_numeric s.

Definition _coerce_datetime (s : pd.Series) : list (option Z) :=
  to_datetime (pd.s_values s).

Definition numeric_hints : list string :=
  ["int"; "integer"; "bigint"; "float"; "double"; "decimal"; "number"].

Definition schema_by_table (tables : list TableSchema) : dict TableSchema :=
  fold_left (fun acc t => dict_set acc (ts_name t) t) tables [].

(** Lines 392-397. *)
Definition hint_of (t_schema : option TableSchema) (col : string) : option string :=
  match t_schema with
  | None => None
  | Some t =>
      match find (fun c => String.eqb (cm_name c) col) (ts_columns t) with
      | Some c => Some (lower (cm_dtype c))
      | None => None
      end
  end.

Definition hint_is_numeric (hint : option string) : bool :=
  match hint with
  | Some h => mem_str h numeric_hints
  | None => false
  end.

Definition hint_is_date (hint : option string) : bool :=
  match hint with
  | Some h => andb (negb (String.eqb h "")) (str_contains "date" h)
  | None => false
  end.

(** Lines 403-411. *)
Definition numeric_summary (num : pd.Series) : result (dict stat) :=
  let mn := pd.min num in
  p25 <- pd.quantile num (1 # 4) ;;
  p50 <- pd.quantile num (1 # 2) ;;
  p75 <- pd.quantile num (3 # 4) ;;
  Ok [("min", SFloat mn);
      ("p25", SFloat p25);
      ("p50", SFloat p50);
      ("p75", SFloat p75);
      ("max", SFloat (pd.max num));
      ("mean", SFloat (pd.mean num));
      ("std", SSqrt (pd.var0 num))].

(** Lines 385-390. *)
Definition base_stats (df : pd.DataFrameT) (series : pd.Series) : dict stat :=
  let nn := pd.notna_sum series in
  [("non_null", SInt nn);
   ("nulls", SInt (pd.len df - nn));
   ("null_pct",
    SFloat (Fin (if pd.len df =? 0 then 0%Q
                 else (inject_Z (pd.len df - nn)
                       / inject_Z (Z.max 1 (pd.len df)))%Q)));
   ("distinct", SInt (pd.nunique series))].

(** Lines 399-411: numeric summary. *)
Definition add_numeric (hint : option string) (series : pd.Series)
           (stats : dict stat) : result (dict stat) :=
  if orb (hint_is_numeric hint) (pd.is_numeric_dtype series) then
    let num := _coerce_numeric series in
    if pd.notna_any num then
      summary <- numeric_summary num ;;
      Ok (dict_update stats summary)
    else Ok stats
  else Ok stats.

(** Lines 413-420: date range. *)
Definition add_dates (hint : option string) (col : string)
           (series : pd.Series) (stats : dict stat) : dict stat :=
  if orb (hint_is_date hint) (str_contains "date" (lower col)) then
    let dt := _coerce_datetime series in
    if pd.dt_notna_any dt then
      dict_update stats [("min_date", SStr (date_iso (pd.dt_min dt)));
                         ("max_date", SStr (date_iso (pd.dt_max dt)))]
    else stats
  else stats.

(** Lines 422-426: top categories. *)
Definition add_top_values (series : pd.Series) (stats : dict stat) : dict stat :=
  if pd.dtype_eqb (pd.s_dtype series) pd.object then
    let vc := pd.head 5 (pd.value_counts (pd.astype_str series)) in
    if (0 <? Z.of_nat (List.length vc)) then
      dict_set stats "top_values" (SCounts vc)
    else stats
  else stats.

(** Lines 383-428. *)
Definition column_stats (df : pd.DataFrameT) (t_schema : option TableSchema)
           (col : string) : result (dict stat) :=
  let series := pd.getitem df col in
  let stats := base_stats df series in
  let hint := hint_of t_schema col in
  stats <- add_numeric hint series stats ;;
  Ok (add_top_values series (add_dates hint col series stats)).

(** Lines 431-435. *)
Definition df_num (df : pd.DataFrameT) : dict pd.Series :=
  fold_left (fun acc c =>
               let num := _coerce_numeric (pd.getitem df c) in
               if pd.notna_any num then dict_set acc c num else acc)
            (pd.columns df) [].

(** Lines 376-439. *)
Definition table_profile (t_schema : option TableSchema) (rows : list (dict pyval))
  : result TableInfo :=
  let df := _to_df rows in
  if pd.len df =? 0 then
    Ok (mkTableInfo (Some (pd.len df)) (Some []) None)
  else
    cols <- for_each (fun acc col =>
                        stats <- column_stats df t_schema col ;;
                        Ok (dict_set acc col stats))
                     (pd.columns df) [] ;;
    let dfn := df_num df in
    Ok (mkTableInfo (Some (pd.len df)) (Some cols)
          (if (2 <=? List.length dfn)%nat
           then Some (pd.to_dict (pd.round 3 (pd.corr dfn)))
           else None)).

Definition compute_profile (sample_rows : dict (list (dict pyval)))
           (tables : list TableSchema) : result (dict TableInfo) :=
  let by_table := schema_by_table tables in
  for_each (fun profile item =>
              info <- table_profile (dict_get by_table (fst item)) (snd item) ;;
              Ok (dict_set profile (fst item) info))
           sample_rows [].

(** Lines 450-473. *)
Definition first_numeric (df : pd.DataFrameT) : option string :=
  find (fun col => pd.notna_any (_coerce_numeric (pd.getitem df col)))
       (pd.columns df).

Definition first_categorical (df : pd.DataFrameT) : option string :=
  find (fun col =>
          andb (pd.dtype_eqb (pd.s_dtype (pd.getitem df col)) pd.object)
               (Z.of_nat (List.length
                            (pd.unique_by String.eqb
                               (pd.astype_str (pd.getitem df col)))) <=? 30))
       (pd.columns df).

Definition first_date (df : pd.DataFrameT) : option string :=
  find (fun c => andb (str_contains "date" (lower c))
                      (pd.dt_notna_any (_coerce_datetime (pd.getitem df c))))
       (pd.columns df).

Definition table_charts (tname : string) (rows : list (dict pyval))
  : list SuggestedChart :=
  let df := _to_df rows in
  let hist :=
    match first_numeric df with
    | Some col =>
        [mkSuggestedChart (tname ++ "." ++ col ++ " — distribution")
                          "hist" tname col None None]
    | None => []
    end in
  let bar :=
    match first_categorical df with
    | Some col =>
        [mkSuggestedChart (tname ++ "." ++ col ++ " — top categories")
                          "bar" tname col None None]
    | None => []
    end in
  let date_col := first_date df in
  let num_col := first_numeric df in
  let line :=
    match date_col, num_col with
    | Some d, Some n =>
        if andb (truthy date_col) (truthy num_col) then
          [mkSuggestedChart (tname ++ ": " ++ n ++ " over " ++ d)
                            "line" tname d (Some n) None]
        else []
    | _, _ => []
    end in
  (hist ++ bar ++ line)%list.

Definition suggest_charts (sample_rows : dict (list (dict pyval)))
  : list SuggestedChart :=
  firstn 6
    (fold_left (fun charts item =>
                  match snd item with
                  | [] => charts
                  | _ => (charts ++ table_charts (fst item) (snd item))%list
                  end)
               sample_rows []).

(** Lines 479-496. *)
Definition correlation_rows (tname : string) (corr : dict (dict pyfloat))
  : list FlatRow :=
  let cols := dict_keys corr in
  flat_map
    (fun ia =>
       flat_map
         (fun jb =>
            if (fst jb <=? fst ia)%nat then []
            else
              match dict_get (match dict_get corr (snd ia) with
                              | Some row => row
                              | None => []
                              end) (snd jb) with
              | Some val =>
                  [mkFlatRow "correlation" tname "" (snd ia ++ "~" ++ snd jb)
                             (VCorr val)]
              | None => []
              end)
         (pd.enumerate cols))
    (pd.enumerate cols).

Definition column_rows (tname : string) (cols : dict (dict stat)) : list FlatRow :=
  flat_map (fun c =>
              map (fun kv => mkFlatRow "column" tname (fst c) (fst kv) (VStat (snd kv)))
                  (snd c))
           cols.

Definition table_rows (tname : string) (tinfo : TableInfo) : list FlatRow :=
  ([mkFlatRow "table" tname "" "row_count"
              (VStat (SInt (match row_count tinfo with Some n => n | None => 0 end)))]
   ++ column_rows tname (match columns tinfo with Some c => c | None => [] end)
   ++ match correlation_pearson tinfo with
      | Some (r :: corr) => correlation_rows tname (r :: corr)
      | _ => []
      end)%list.

Definition profile_to_rows (profile : dict TableInfo) : list FlatRow :=
  flat_map (fun item => table_rows (fst item) (snd item)) profile.

End WithParsers.

End main.

(** ** Text parsers for running the examples

    A small instance of [Parsers]: a string of decimal digits is the number
    it spells, a [YYYY-MM-DD] string is that day, an [int] is a count of
    nanoseconds since the epoch, anything else is not recognised.  It agrees
    with pandas on the inputs of the examples of this file. *)

Definition digit_of (c : ascii) : option Z :=
  let n := nat_of_ascii c in
  if andb (Nat.leb 48 n) (Nat.leb n 57) then Some (Z.of_nat (n - 48)) else None.

Fixpoint digits_acc (s : string) (acc : Z) : option Z :=
  match s with
  | EmptyString => Some acc
  | String c rest =>
      match digit_of c with
      | Some d => digits_acc rest (10 * acc + d)
      | None => None
      end
  end.

Definition digits (s : string) : option Z :=
  match s with
  | EmptyString => None
  | _ => digits_acc s 0
  end.

(** Days from 1970-01-01 to the civil date [y-m-d]. *)
Definition days_from_civil (y m d : Z) : Z :=
  let y' := if m <=? 2 then y - 1 else y in
  let era := y' / 400 in
  let yoe := y' - era * 400 in
  let doy := (153 * (if 2 <? m then m - 3 else m + 9) + 2) / 5 + d - 1 in
  let doe := yoe * 365 + yoe / 4 - yoe / 100 + doy in
  era * 146097 + doe - 719468.

Definition ns_per_day : Z := 86400 * 1000000000.

Definition iso_day (s : string) : option Z :=
  match digits (substring 0 4 s), digits (substring 5 2 s), digits (substring 8 2 s) with
  | Some y, Some m, Some d =>
      if andb (andb (String.eqb (substring 4 1 s) "-") (String.eqb (substring 7 1 s) "-"))
              (andb (andb (Nat.eqb (String.length s) 10) (andb (1 <=? m) (m <=? 12)))
                    (andb (1 <=? d) (d <=? 31)))
      then Some (days_from_civil y m d * ns_per_day)
      else None
  | _, _, _ => None
  end.

Definition two_digits (z : Z) : string :=
  if z <? 10 then "0" ++ str_of_int z else str_of_int z.

(** The civil date of a timestamp, as [YYYY-MM-DD]. *)
Definition civil_iso (ns : Z) : string :=
  let z := ns / ns_per_day + 719468 in
  let era := z / 146097 in
  let doe := z - era * 146097 in
  let yoe := (doe - doe / 1460 + doe / 36524 - doe / 146096) / 365 in
  let doy := doe - (365 * yoe + yoe / 4 - yoe / 100) in
  let mp := (5 * doy + 2) / 153 in
  let d := doy - (153 * mp + 2) / 5 + 1 in
  let m := if mp <? 10 then mp + 3 else mp - 9 in
  let y := yoe + era * 400 + (if m <=? 2 then 1 else 0) in
  str_of_int y ++ "-" ++ two_digits m ++ "-" ++ two_digits d.

Definition example_parsers : Parsers := {|
  str_to_float := fun s => option_map inject_Z (digits s);
  float_repr := fun q => str_of_int (Qfloor q) ++ ".0";
  to_datetime := map (fun v => match v with
                               | PStr s => iso_day s
                               | PInt z => Some z
                               | _ => None
                               end);
  date_iso := civil_iso
|}.

(** ** Reading a profile *)

Definition numeric_keys : list string :=
  ["min"; "p25"; "p50"; "p75"; "max"; "mean"; "std"].

(** The column profile holds the numeric block. *)
Definition has_numeric_block (stats : dict stat) : bool :=
  forallb (dict_has stats) numeric_keys.

(** [corr[a][b]] *)
Definition entry (corr : dict (dict pyfloat)) (a b : string) : option pyfloat :=
  match dict_get corr a with
  | Some row => dict_get row b
  | None => None
  end.

(** The gate of lines 39-41: a numeric hint or a numeric dtype, and at
    least one value that coerces. *)
Definition numeric_gate {P : Parsers} (t_schema : option TableSchema) (df : pd.DataFrameT)
           (c : string) : bool :=
  andb (orb (dataide.hint_is_numeric (dataide.hinted_dtype t_schema c))
            (pd.is_numeric_dtype (pd.getitem df c)))
       (pd.notna_any (dataide.coerce_numeric (pd.getitem df c))).

(** The pairs [(l[i], l[j])] with [i < j], in the order of [i], then [j]. *)
Fixpoint upper_pairs (l : list string) : list (string * string) :=
  match l with
  | [] => []
  | a :: rest => (map (fun b => (a, b)) rest ++ upper_pairs rest)%list
  end.

(** The records of one level of one table. *)
Definition row_is (lv tname : string) (r : FlatRow) : bool :=
  andb (String.eqb (level r) lv) (String.eqb (table r) tname).

(** A correlation block that has a value for every pair of its columns. *)
Definition complete_block (corr : dict (dict pyfloat)) : Prop :=
  forall a b, In a (dict_keys corr) -> In b (dict_keys corr) ->
              entry corr a b <> None.

(** A profiling summary as a Python value: the keys of each dict are
    distinct, and a correlation block is a full matrix. *)
Definition well_formed_summary (profile : dict TableInfo) : Prop :=
  NoDup (dict_keys profile) /\
  forall tname tinfo,
    In (tname, tinfo) profile ->
    (forall cols,
        columns tinfo = Some cols ->
        NoDup (dict_keys cols) /\
        forall c cstats, In (c, cstats) cols -> NoDup (dict_keys cstats)) /\
    (forall corr,
        correlation_pearson tinfo = Some corr ->
        NoDup (dict_keys corr) /\ complete_block corr).

(** The value of [corr[a][b]], NaN standing for a missing entry. *)
Definition entry_value (corr : dict (dict pyfloat)) (a b : string) : pyfloat :=
  match entry corr a b with
  | Some v => v
  | None => NaN
  end.

(** The correlation part of the records of a table. *)
Definition correlation_part (tname : string) (tinfo : TableInfo) : list FlatRow :=
  match correlation_pearson tinfo with
  | Some (r :: corr) => dataide.correlation_rows tname (r :: corr)
  | _ => []
  end.

(** What a table contributes to the list of charts. *)
Definition charts_of {P : Parsers} (item : string * list (dict pyval)) : list SuggestedChart :=
  match snd item with
  | [] => []
  | _ => dataide.table_charts (fst item) (snd item)
  end.

(** A cell of a numeric column: neither text nor [None]. *)
Definition numeric_cell (v : pyval) : bool :=
  match v with
  | PNone | PStr _ => false
  | _ => true
  end.

(** ** Sample data for the examples *)


(** Scenario A of the specification, with [a] declared [int]. *)
Definition scenario_a : dict (list (dict pyval)) :=
  [("t", [[("a", PStr "1"); ("b", PStr "x")];
          [("a", PStr "2"); ("b", PStr "y")];
          [("a", PNone); ("b", PStr "x")]])].

Definition scenario_a_tables : list TableSchema :=
  [mkTableSchema "t" None None None
                 [mkColumnMeta "a" "int" None true (Some "none") None]].

Definition scenario_a_profile : dict TableInfo :=
  Eval vm_compute in
    match dataide.compute_profile (P := example_parsers) scenario_a scenario_a_tables with
    | Ok profile => profile
    | Raise _ => []
    end.

Definition scenario_a_info : TableInfo :=
  Eval vm_compute in
    match scenario_a_profile with
    | (_, tinfo) :: _ => tinfo
    | [] => mkTableInfo None None None
    end.

Definition scenario_a_cols : dict (dict stat) :=
  Eval vm_compute in
    match columns scenario_a_info with Some cols => cols | None => [] end.

Definition scenario_a_stats : dict stat :=
  Eval vm_compute in
    match dict_get scenario_a_cols "a" with Some stats => stats | None => [] end.

(** Two numeric columns that are not perfectly correlated. *)
Definition scenario_c : dict (list (dict pyval)) :=
  [("t", [[("a", PInt 1); ("b", PInt 2)];
          [("a", PInt 2); ("b", PInt 4)];
          [("a", PInt 3); ("b", PInt 6)];
          [("a", PInt 4); ("b", PInt 9)]])].

Definition scenario_c_profile : dict TableInfo :=
  Eval vm_compute in
    match dataide.compute_profile (P := example_parsers) scenario_c [] with
    | Ok profile => profile
    | Raise _ => []
    end.

Definition scenario_c_info : TableInfo :=
  Eval vm_compute in
    match scenario_c_profile with
    | (_, tinfo) :: _ => tinfo
    | [] => mkTableInfo None None None
    end.

Definition scenario_c_corr : dict (dict pyfloat) :=
  Eval vm_compute in
    match correlation_pearson scenario_c_info with Some corr => corr | None => [] end.

(** Orders with a date and an amount. *)
Definition scenario_e : dict (list (dict pyval)) :=
  [("orders", [[("order_date", PStr "2025-01-01"); ("amount", PInt 3)];
               [("order_date", PStr "2025-03-15"); ("amount", PInt 4)]])].

Definition scenario_e_line : SuggestedChart :=
  mkSuggestedChart "orders: amount over order_date" "line" "orders"
                   "order_date" (Some "amount") None.

(** A column named [date] that holds integers. *)
Definition numeric_date : dict (list (dict pyval)) :=
  [("t", [[("date", PInt 1)]; [("date", PInt 2)]])].

Definition text_with_null : list (dict pyval) :=
  [[("b", PStr "x")]; [("b", PNone)]].

Definition one_flag : list (dict pyval) :=
  [[("flag", PBool true)]].

Definition numeric_strings : list (dict pyval) :=
  [[("a", PStr "1")]; [("a", PStr "2")]].

(** The floats [-1e308] and [1e308]: their difference is beyond the
    largest float. *)
Definition far_apart : list (dict pyval) :=
  [[("a", PFloat (nearest_double (- inject_Z (10 ^ 308))))];
   [("a", PFloat (nearest_double (inject_Z (10 ^ 308))))]].

(** Two integers whose difference is beyond [int64]. *)
Definition far_apart_integers : list (dict pyval) :=
  [[("a", PInt (-6 * 10 ^ 18))]; [("a", PInt (6 * 10 ^ 18))]].

(** The columns [a = [1e100, 2e100]] and [b = [1, 2]]. *)
Definition large_and_small : list (dict pyval) :=
  [[("a", PFloat (nearest_double (inject_Z (10 ^ 100)))); ("b", PInt 1)];
   [("a", PFloat (nearest_double (inject_Z (2 * 10 ^ 100)))); ("b", PInt 2)]].

(** * Properties *)

(** ** Dicts and loops *)

Lemma dict_get_set_same {V : Type} (d : dict V) (k : string) (v : V) :
  dict_get (dict_set d k v) k = Some v.
Proof.
  induction d as [| [k' v'] d IH]; simpl.
  - now rewrite String.eqb_refl.
  - destruct (String.eqb k' k) eqn:E; simpl; rewrite E; auto.
Qed.

Lemma dict_get_set_other {V : Type} (d : dict V) (k k' : string) (v : V) :
  k <> k' -> dict_get (dict_set d k v) k' = dict_get d k'.
Proof.
  intros Hne. induction d as [| [k0 v0] d IH]; simpl.
  - destruct (String.eqb_spec k k'); congruence.
  - destruct (String.eqb_spec k0 k) as [-> | Hk]; simpl.
    + destruct (String.eqb_spec k k'); congruence.
    + destruct (String.eqb_spec k0 k'); auto.
Qed.

Lemma in_dict_set {V : Type} (d : dict V) (k k' : string) (v v' : V) :
  In (k, v) (dict_set d k' v') -> (k = k' /\ v = v') \/ In (k, v) d.
Proof.
  induction d as [| [k0 v0] d IH]; simpl.
  - intros [H | []]. inversion H; auto.
  - destruct (String.eqb_spec k0 k') as [-> | Hk]; simpl.
    + intros [H | H]; [inversion H; auto | auto].
    + intros [H | H]; [auto | destruct (IH H); auto].
Qed.

Lemma dict_keys_set {V : Type} (d : dict V) (k : string) (v : V) :
  dict_keys (dict_set d k v)
  = if mem_str k (dict_keys d) then dict_keys d else (dict_keys d ++ [k])%list.
Proof.
  unfold dict_keys, mem_str.
  induction d as [| [k0 v0] d IH]; simpl; auto.
  rewrite (String.eqb_sym k k0).
  destruct (String.eqb k0 k) eqn:E; simpl; auto.
  rewrite IH. destruct (existsb (String.eqb k) (map fst d)); auto.
Qed.

Lemma mem_str_In (k : string) (l : list string) : mem_str k l = true <-> In k l.
Proof.
  unfold mem_str. rewrite existsb_exists. split.
  - intros [x [Hx E]]. apply String.eqb_eq in E. now subst.
  - intros H. exists k. split; auto. apply String.eqb_refl.
Qed.

Lemma dict_keys_set_NoDup {V : Type} (d : dict V) (k : string) (v : V) :
  NoDup (dict_keys d) -> NoDup (dict_keys (dict_set d k v)).
Proof.
  intros H. rewrite dict_keys_set.
  destruct (mem_str k (dict_keys d)) eqn:E; auto.
  apply NoDup_app; auto.
  - repeat constructor. simpl. tauto.
  - intros x Hx [<- | []]. apply mem_str_In in Hx. congruence.
Qed.

Lemma dict_get_In {V : Type} (d : dict V) (k : string) (v : V) :
  dict_get d k = Some v -> In (k, v) d.
Proof.
  induction d as [| [k0 v0] d IH]; simpl; [discriminate |].
  destruct (String.eqb_spec k0 k) as [-> | Hk].
  - intros H. inversion H. auto.
  - auto.
Qed.

Lemma In_dict_get {V : Type} (d : dict V) (k : string) (v : V) :
  NoDup (dict_keys d) -> In (k, v) d -> dict_get d k = Some v.
Proof.
  induction d as [| [k0 v0] d IH]; simpl; [tauto |].
  intros Hnd [H | H].
  - inversion H. subst. now rewrite String.eqb_refl.
  - inversion Hnd as [| ? ? Hnot Hnd']. subst.
    destruct (String.eqb_spec k0 k) as [-> | Hk]; auto.
    exfalso. apply Hnot. apply (in_map fst) in H. exact H.
Qed.

Lemma dict_get_None {V : Type} (d : dict V) (k : string) :
  dict_get d k = None <-> ~ In k (dict_keys d).
Proof.
  induction d as [| [k0 v0] d IH]; simpl; [tauto |].
  destruct (String.eqb_spec k0 k) as [-> | Hk].
  - split; [discriminate | tauto].
  - rewrite IH. tauto.
Qed.

(** An invariant of a loop that did not raise. *)
Lemma for_each_inv {A S : Type} (body : S -> A -> result S) (I : S -> Prop)
      (xs : list A) :
  (forall s x s', In x xs -> I s -> body s x = Ok s' -> I s') ->
  forall s s', I s -> for_each body xs s = Ok s' -> I s'.
Proof.
  induction xs as [| x xs IH]; simpl; intros Hbody s s' Hs Hrun.
  - inversion Hrun. now subst.
  - destruct (body s x) as [s1 | e] eqn:E; simpl in Hrun; [| discriminate].
    eapply IH; [| | exact Hrun]; eauto.
Qed.

(** A loop whose body never raises returns. *)
Lemma for_each_returns {A S : Type} (body : S -> A -> result S) (xs : list A) :
  (forall s x, In x xs -> exists s', body s x = Ok s') ->
  forall s, exists s', for_each body xs s = Ok s'.
Proof.
  induction xs as [| x xs IH]; simpl; intros Hbody s.
  - eauto.
  - destruct (Hbody s x) as [s1 E]; auto. rewrite E. simpl. apply IH. auto.
Qed.

Lemma dict_get_update_other {V : Type} (e d : dict V) (k : string) :
  ~ In k (dict_keys e) -> dict_get (dict_update d e) k = dict_get d k.
Proof.
  unfold dict_update. revert d.
  induction e as [| [k0 v0] e IH]; simpl; intros d Hk; auto.
  rewrite IH by tauto. apply dict_get_set_other. intros ->. tauto.
Qed.

Lemma dict_get_update_in {V : Type} (e d : dict V) (k : string) :
  NoDup (dict_keys e) -> In k (dict_keys e) ->
  dict_get (dict_update d e) k = dict_get e k.
Proof.
  unfold dict_update. revert d.
  induction e as [| [k0 v0] e IH]; simpl; intros d Hnd Hk; [tauto |].
  inversion Hnd as [| ? ? Hnot Hnd']. subst.
  destruct (String.eqb_spec k0 k) as [-> | Hne].
  - fold (dict_update (dict_set d k v0) e).
    rewrite dict_get_update_other by exact Hnot. apply dict_get_set_same.
  - apply IH; auto. destruct Hk; congruence.
Qed.

Lemma dict_has_set {V : Type} (d : dict V) (k k' : string) (v : V) :
  dict_has (dict_set d k v) k' = orb (String.eqb k k') (dict_has d k').
Proof.
  unfold dict_has. destruct (String.eqb_spec k k') as [-> | Hne].
  - now rewrite dict_get_set_same.
  - now rewrite dict_get_set_other.
Qed.

Lemma dict_has_update {V : Type} (e d : dict V) (k : string) :
  dict_has (dict_update d e) k = orb (mem_str k (dict_keys e)) (dict_has d k).
Proof.
  unfold dict_update. revert d.
  induction e as [| [k0 v0] e IH]; simpl; intros d; auto.
  rewrite IH, dict_has_set. rewrite (String.eqb_sym k k0).
  destruct (String.eqb k0 k), (mem_str k (dict_keys e)); auto.
Qed.

(** ** The shape of a profiling summary *)

Section Profile.
Context {P : Parsers}.

(** A loop that stores one result per item under the item's key. *)
Lemma stored_entries {A V : Type} (f : A -> result V) (key : A -> string)
      (xs : list A) (acc d : dict V) :
  for_each (fun acc x => v <- f x ;; Ok (dict_set acc (key x) v)) xs acc = Ok d ->
  forall k v, In (k, v) d ->
              In (k, v) acc \/ exists x, In x xs /\ key x = k /\ f x = Ok v.
Proof.
  revert acc. induction xs as [| x xs IH]; simpl; intros acc Hrun k v Hin.
  - inversion Hrun. subst. auto.
  - destruct (f x) as [v0 | e] eqn:E; simpl in Hrun; [| discriminate].
    destruct (IH _ Hrun k v Hin) as [H | [y [Hy [Hk Hf]]]].
    + apply in_dict_set in H. destruct H as [[-> ->] | H]; [right; eauto | auto].
    + right. eauto.
Qed.

Lemma stored_unchanged {A V : Type} (f : A -> result V) (key : A -> string)
      (xs : list A) (acc d : dict V) (k : string) :
  for_each (fun acc x => v <- f x ;; Ok (dict_set acc (key x) v)) xs acc = Ok d ->
  ~ In k (map key xs) -> dict_get d k = dict_get acc k.
Proof.
  revert acc. induction xs as [| x xs IH]; simpl; intros acc Hrun Hk.
  - inversion Hrun. now subst.
  - destruct (f x) as [v0 | e] eqn:E; simpl in Hrun; [| discriminate].
    rewrite (IH _ Hrun) by tauto. apply dict_get_set_other. tauto.
Qed.

Lemma stored_lookup {A V : Type} (f : A -> result V) (key : A -> string)
      (xs : list A) (acc d : dict V) :
  for_each (fun acc x => v <- f x ;; Ok (dict_set acc (key x) v)) xs acc = Ok d ->
  NoDup (map key xs) ->
  forall x, In x xs -> exists v, f x = Ok v /\ dict_get d (key x) = Some v.
Proof.
  revert acc. induction xs as [| x xs IH]; simpl; intros acc Hrun Hnd y Hy; [tauto |].
  destruct (f x) as [v0 | e] eqn:E; simpl in Hrun; [| discriminate].
  inversion Hnd as [| ? ? Hnot Hnd']. subst.
  destruct Hy as [<- | Hy].
  - exists v0. split; auto.
    rewrite (stored_unchanged _ _ _ _ _ _ Hrun Hnot). apply dict_get_set_same.
  - eapply IH; eauto.
Qed.

Lemma stored_keys_NoDup {A V : Type} (f : A -> result V) (key : A -> string)
      (xs : list A) (acc d : dict V) :
  for_each (fun acc x => v <- f x ;; Ok (dict_set acc (key x) v)) xs acc = Ok d ->
  NoDup (dict_keys acc) -> NoDup (dict_keys d).
Proof.
  revert acc. induction xs as [| x xs IH]; simpl; intros acc Hrun Hnd.
  - inversion Hrun. now subst.
  - destruct (f x) as [v0 | e] eqn:E; simpl in Hrun; [| discriminate].
    eapply IH; eauto. now apply dict_keys_set_NoDup.
Qed.

(** Every table profile of the summary is the profile of a table of the
    input. *)
Lemma compute_profile_entries sample_rows tables profile :
  dataide.compute_profile sample_rows tables = Ok profile ->
  forall tname tinfo,
    In (tname, tinfo) profile ->
    exists rows,
      In (tname, rows) sample_rows /\
      dataide.table_profile (dict_get (dataide.schema_by_table tables) tname) rows
      = Ok tinfo.
Proof.
  unfold dataide.compute_profile. intros Hrun tname tinfo Hin.
  destruct (stored_entries
              (fun item => dataide.table_profile
                             (dict_get (dataide.schema_by_table tables) (fst item))
                             (snd item))
              fst _ _ _ Hrun _ _ Hin) as [[] | [[k rows] [Hx [Hk Hf]]]].
  simpl in *. subst. eauto.
Qed.

Lemma len_DataFrame rows : pd.len (dataide.to_dataframe rows) = Z.of_nat (List.length rows).
Proof. reflexivity. Qed.

(** The profile of a table with rows: one column profile per column of the
    frame, each computed by [column_stats]. *)
Lemma table_profile_columns t_schema rows tinfo :
  rows <> [] ->
  dataide.table_profile t_schema rows = Ok tinfo ->
  exists cols,
    row_count tinfo = Some (Z.of_nat (List.length rows)) /\
    columns tinfo = Some cols /\
    NoDup (dict_keys cols) /\
    forall c stats,
      In (c, stats) cols ->
      In c (pd.columns (dataide.to_dataframe rows)) /\
      dataide.column_stats (dataide.to_dataframe rows) t_schema c = Ok stats.
Proof.
  intros Hrows. unfold dataide.table_profile.
  rewrite len_DataFrame.
  destruct (Z.eqb_spec (Z.of_nat (List.length rows)) 0) as [E | _].
  { destruct rows; [congruence | simpl in E; lia]. }
  destruct (for_each _ _ _) as [cols | e] eqn:Hloop; simpl; [| discriminate].
  intros H. inversion H. subst. clear H. simpl.
  exists cols. repeat split; auto.
  - eapply stored_keys_NoDup with (key := fun c => c); [exact Hloop | constructor].
  - destruct (stored_entries _ (fun c => c) _ _ _ Hloop _ _ H)
      as [[] | [x [Hx [-> Hf]]]]. exact Hx.
  - destruct (stored_entries _ (fun c => c) _ _ _ Hloop _ _ H)
      as [[] | [x [Hx [-> Hf]]]]. exact Hf.
Qed.

Lemma table_profile_empty t_schema :
  dataide.table_profile t_schema [] = Ok (mkTableInfo (Some 0) (Some []) None).
Proof. reflexivity. Qed.

(** *** The three stages of a column profile *)

Lemma numeric_block_inv numeric block :
  dataide.numeric_block numeric = Ok block ->
  exists p25 p50 p75,
    pd.quantile numeric (1 # 4) = Ok p25 /\
    pd.quantile numeric (1 # 2) = Ok p50 /\
    pd.quantile numeric (3 # 4) = Ok p75 /\
    block = [("min", SFloat (pd.min numeric)); ("p25", SFloat p25);
             ("p50", SFloat p50); ("p75", SFloat p75);
             ("max", SFloat (pd.max numeric)); ("mean", SFloat (pd.mean numeric));
             ("std", SSqrt (pd.var0 numeric))].
Proof.
  unfold dataide.numeric_block.
  destruct (pd.quantile numeric (1 # 4)) as [p25 |]; simpl; [| discriminate].
  destruct (pd.quantile numeric (1 # 2)) as [p50 |]; simpl; [| discriminate].
  destruct (pd.quantile numeric (3 # 4)) as [p75 |]; simpl; [| discriminate].
  intros H. inversion H. exists p25, p50, p75. auto.
Qed.

Lemma numeric_block_keys numeric block :
  dataide.numeric_block numeric = Ok block -> dict_keys block = numeric_keys.
Proof.
  intros H. destruct (numeric_block_inv _ _ H) as (? & ? & ? & _ & _ & _ & ->).
  reflexivity.
Qed.

Lemma add_numeric_other hint series stats stats' k :
  dataide.add_numeric hint series stats = Ok stats' ->
  ~ In k numeric_keys -> dict_get stats' k = dict_get stats k.
Proof.
  unfold dataide.add_numeric. intros H Hk.
  destruct (orb _ _); [| inversion H; auto].
  destruct (pd.notna_any _); [| inversion H; auto].
  destruct (dataide.numeric_block _) as [block |] eqn:E; simpl in H; [| discriminate].
  inversion H. apply dict_get_update_other. now rewrite (numeric_block_keys _ _ E).
Qed.

Lemma add_dates_other hint column_name series stats k :
  k <> "min_date" -> k <> "max_date" ->
  dict_get (dataide.add_dates hint column_name series stats) k = dict_get stats k.
Proof.
  intros H1 H2. unfold dataide.add_dates.
  destruct (orb _ _); auto. destruct (pd.dt_notna_any _); auto.
  apply dict_get_update_other. simpl. intuition congruence.
Qed.

Lemma add_top_values_other series stats k :
  k <> "top_values" ->
  dict_get (dataide.add_top_values series stats) k = dict_get stats k.
Proof.
  intros H. unfold dataide.add_top_values.
  destruct (pd.dtype_eqb _ _); auto. destruct (0 <? _); auto.
  apply dict_get_set_other. congruence.
Qed.

(** A key of the counts or of the numeric block is read from the profile
    as the numeric stage left it. *)
Lemma column_stats_get df t_schema c stats k :
  dataide.column_stats df t_schema c = Ok stats ->
  k <> "min_date" -> k <> "max_date" -> k <> "top_values" ->
  exists stats1,
    dataide.add_numeric (dataide.hinted_dtype t_schema c) (pd.getitem df c)
                        (dataide.base_stats df (pd.getitem df c)) = Ok stats1 /\
    dict_get stats k = dict_get stats1 k.
Proof.
  unfold dataide.column_stats. intros H H1 H2 H3.
  destruct (dataide.add_numeric _ _ _) as [stats1 |] eqn:E; simpl in H; [| discriminate].
  inversion H. exists stats1. split; auto.
  now rewrite add_top_values_other, add_dates_other.
Qed.

End Profile.

(** ** Empty tables and null accounting *)

Section Counts.
Context {P : Parsers}.

(** C7.  A table whose list of sample rows is empty is profiled as exactly
    [{row_count: 0, columns: {}}]: no column profile and no correlation
    block.  ([sample_rows] is a dict: its keys are distinct.) *)
Theorem empty_table_profile sample_rows tables profile name :
  NoDup (dict_keys sample_rows) ->
  In (name, []) sample_rows ->
  dataide.compute_profile sample_rows tables = Ok profile ->
  dict_get profile name = Some (mkTableInfo (Some 0) (Some []) None).
Proof.
  intros Hnd Hin Hrun. unfold dataide.compute_profile in Hrun.
  destruct (stored_lookup
              (fun item => dataide.table_profile
                             (dict_get (dataide.schema_by_table tables) (fst item))
                             (snd item))
              fst _ _ _ Hrun Hnd _ Hin) as [v [Hv Hget]].
  simpl in Hv, Hget. rewrite table_profile_empty in Hv. inversion Hv. subst.
  exact Hget.
Qed.

(** The profile of an empty table is computed without looking at any
    column, so it cannot raise. *)
Lemma empty_table_returns t_schema :
  exists tinfo, dataide.table_profile t_schema [] = Ok tinfo.
Proof. eexists. apply table_profile_empty. Qed.

(** C5.  In every column profile, [non_null + nulls] is the table's
    [row_count] and [null_pct] is [nulls / row_count] (0 when [row_count]
    is 0). *)
Theorem null_accounting sample_rows tables profile tname tinfo :
  dataide.compute_profile sample_rows tables = Ok profile ->
  In (tname, tinfo) profile ->
  exists n cols,
    row_count tinfo = Some n /\
    columns tinfo = Some cols /\
    forall cname stats,
      In (cname, stats) cols ->
      exists non_null nulls,
        dict_get stats "non_null" = Some (SInt non_null) /\
        dict_get stats "nulls" = Some (SInt nulls) /\
        non_null + nulls = n /\
        dict_get stats "null_pct"
        = Some (SFloat (Fin (if n =? 0 then 0%Q
                             else (inject_Z nulls / inject_Z n)%Q))).
Proof.
  intros Hrun Hin.
  destruct (compute_profile_entries _ _ _ Hrun _ _ Hin) as [rows [_ Htab]].
  destruct rows as [| r rows].
  - rewrite table_profile_empty in Htab. inversion Htab. subst.
    exists 0, []. simpl. repeat split; auto. intros ? ? [].
  - assert (Hne : r :: rows <> []) by discriminate.
    destruct (table_profile_columns _ _ _ Hne Htab)
      as (cols & Hn & Hc & _ & Hcols).
    exists (Z.of_nat (List.length (r :: rows))), cols.
    repeat split; auto. intros cname stats Hcs.
    destruct (Hcols _ _ Hcs) as [_ Hstats].
    set (df := dataide.to_dataframe (r :: rows)) in *.
    set (series := pd.getitem df cname).
    exists (pd.notna_sum series), (pd.len df - pd.notna_sum series).
    assert (Hget : forall k, In k ["non_null"; "nulls"; "null_pct"] ->
                             dict_get stats k
                             = dict_get (dataide.base_stats df series) k).
    { intros k Hk.
      assert (Hother : k <> "min_date" /\ k <> "max_date" /\ k <> "top_values"
                       /\ ~ In k numeric_keys).
      { destruct Hk as [<- | [<- | [<- | []]]]; simpl;
          repeat split; try discriminate; intuition discriminate. }
      destruct Hother as (H1 & H2 & H3 & H4).
      destruct (column_stats_get df _ cname stats k Hstats H1 H2 H3) as [s1 [Hs1 ->]].
      apply (add_numeric_other _ _ _ _ _ Hs1 H4). }
    rewrite !Hget by (simpl; auto).
    assert (Hlen : pd.len df = Z.of_nat (List.length (r :: rows))) by reflexivity.
    rewrite <- Hlen.
    assert (Hpos : 1 <= pd.len df) by (rewrite Hlen; simpl; lia).
    repeat split; try reflexivity; try lia.
    unfold dataide.base_stats. simpl dict_get.
    now rewrite Z.max_r by lia.
Qed.

End Counts.

(** ** Columns of a frame *)

Section Columns.
Context {P : Parsers}.

Lemma dict_get_map_key {V : Type} (f : string -> V) (l : list string) (k : string) :
  dict_get (map (fun c => (c, f c)) l) k = if mem_str k l then Some (f k) else None.
Proof.
  unfold mem_str. induction l as [| c l IH]; simpl; auto.
  rewrite (String.eqb_sym k c).
  destruct (String.eqb_spec c k) as [-> | Hne]; simpl; auto.
Qed.

Lemma getitem_DataFrame rows c :
  pd.getitem (pd.DataFrame rows) c
  = if mem_str c (pd.union_keys rows) then pd.column rows c else pd.mkSeries pd.object [].
Proof.
  unfold pd.getitem, pd.DataFrame. simpl.
  rewrite dict_get_map_key. now destruct (mem_str c _).
Qed.

Lemma infer_dtype_no_str vs :
  pd.infer_dtype vs <> pd.object -> existsb pd.is_str vs = false.
Proof.
  unfold pd.infer_dtype. destruct (existsb pd.is_str vs); auto. congruence.
Qed.

Lemma store_cells d raw :
  d <> pd.object -> existsb pd.is_str raw = false ->
  forallb numeric_cell (map (pd.store d) raw) = true.
Proof.
  intros Hd. induction raw as [| v raw IH]; simpl; auto.
  intros Hstr. apply orb_false_iff in Hstr. destruct Hstr as [Hv Hraw].
  rewrite IH by auto.
  destruct d, v; simpl in *; congruence.
Qed.

(** A column that is not [object] holds numbers, booleans and NaN only. *)
Lemma column_cells rows c :
  pd.s_dtype (pd.column rows c) <> pd.object ->
  forallb numeric_cell (pd.s_values (pd.column rows c)) = true.
Proof.
  unfold pd.column. simpl. intros Hd.
  apply store_cells; auto. now apply infer_dtype_no_str.
Qed.

Lemma getitem_cells rows c :
  pd.s_dtype (pd.getitem (pd.DataFrame rows) c) <> pd.object ->
  forallb numeric_cell (pd.s_values (pd.getitem (pd.DataFrame rows) c)) = true.
Proof.
  rewrite getitem_DataFrame. destruct (mem_str c _); [apply column_cells | auto].
Qed.

Lemma to_numeric_cells s :
  (pd.s_dtype s <> pd.object -> forallb numeric_cell (pd.s_values s) = true) ->
  forallb numeric_cell (pd.s_values (pd.to_numeric s)) = true.
Proof.
  unfold pd.to_numeric. intros H.
  destruct (pd.s_dtype s) eqn:E; try (apply H; congruence).
  simpl. clear H. induction (pd.s_values s) as [| v vs IH]; simpl; auto.
  rewrite IH. destruct v as [| | b | z | q | t]; simpl; auto.
  now destruct (str_to_float t).
Qed.

Lemma notna_any_valid s :
  forallb numeric_cell (pd.s_values s) = true ->
  pd.notna_any s = true -> pd.valid s <> [].
Proof.
  unfold pd.notna_any, pd.valid.
  induction (pd.s_values s) as [| v vs IH]; simpl; [discriminate |].
  intros Hc Hn. apply andb_true_iff in Hc. destruct Hc as [Hv Hvs].
  destruct v; simpl in *; try discriminate; auto.
Qed.

End Columns.

Section NumericGate.
Context {P : Parsers}.

Lemma numeric_keys_NoDup : NoDup numeric_keys.
Proof.
  unfold numeric_keys. repeat constructor; simpl; intuition discriminate.
Qed.

Lemma numeric_keys_other k :
  In k numeric_keys -> k <> "min_date" /\ k <> "max_date" /\ k <> "top_values".
Proof.
  unfold numeric_keys. simpl. intuition (subst; discriminate).
Qed.

(** What a column profile holds under the keys of the numeric block. *)
Lemma column_stats_numeric df t_schema c stats :
  dataide.column_stats df t_schema c = Ok stats ->
  (numeric_gate t_schema df c = true /\
   exists block,
     dataide.numeric_block (dataide.coerce_numeric (pd.getitem df c)) = Ok block /\
     forall k, In k numeric_keys -> dict_get stats k = dict_get block k)
  \/
  (numeric_gate t_schema df c = false /\
   forall k, In k numeric_keys -> dict_get stats k = None).
Proof.
  intros Hstats. unfold numeric_gate.
  assert (Hread : forall k, In k numeric_keys ->
                            exists stats1,
                              dataide.add_numeric (dataide.hinted_dtype t_schema c)
                                (pd.getitem df c)
                                (dataide.base_stats df (pd.getitem df c)) = Ok stats1 /\
                              dict_get stats k = dict_get stats1 k).
  { intros k Hk. destruct (numeric_keys_other k Hk) as (H1 & H2 & H3).
    now apply column_stats_get. }
  assert (Hbase : forall k, In k numeric_keys ->
                            dict_get (dataide.base_stats df (pd.getitem df c)) k = None).
  { intros k Hk. unfold numeric_keys in Hk. simpl in Hk.
    intuition (subst; reflexivity). }
  unfold dataide.add_numeric in Hread.
  destruct (orb _ _).
  - destruct (pd.notna_any _).
    + destruct (dataide.numeric_block _) as [block |] eqn:E.
      * left. split; auto. exists block. split; auto.
        intros k Hk. destruct (Hread k Hk) as [s1 [H1 ->]].
        simpl in H1. inversion H1.
        apply dict_get_update_in.
        -- rewrite (numeric_block_keys _ _ E). apply numeric_keys_NoDup.
        -- now rewrite (numeric_block_keys _ _ E).
      * destruct (Hread "min") as [s1 [H1 _]]; [simpl; auto | discriminate].
    + right. split; auto. intros k Hk.
      destruct (Hread k Hk) as [s1 [H1 ->]]. inversion H1. auto.
  - right. split; auto. intros k Hk.
    destruct (Hread k Hk) as [s1 [H1 ->]]. inversion H1. auto.
Qed.

Lemma has_numeric_block_gate df t_schema c stats :
  dataide.column_stats df t_schema c = Ok stats ->
  has_numeric_block stats = numeric_gate t_schema df c.
Proof.
  intros Hstats.
  destruct (column_stats_numeric _ _ _ _ Hstats)
    as [[-> [block [Hb Hk]]] | [-> Hk]].
  - destruct (numeric_block_inv _ _ Hb) as (p25 & p50 & p75 & _ & _ & _ & ->).
    unfold has_numeric_block, dict_has, numeric_keys. simpl forallb.
    rewrite !Hk by (unfold numeric_keys; simpl; tauto). reflexivity.
  - unfold has_numeric_block, dict_has, numeric_keys. simpl forallb.
    rewrite (Hk "min") by (unfold numeric_keys; simpl; tauto). reflexivity.
Qed.

(** C1, as the code has it.  A column profile holds the numeric block
    exactly when the declared dtype is one of the numeric hints or the
    column has a numeric dtype, and numeric coercion of the column yields
    at least one non-null value.  So a hint with nothing coercible gives
    no block; and neither does a coercible column that has no hint and no
    numeric dtype. *)
Theorem numeric_block_gated sample_rows tables profile tname tinfo :
  dataide.compute_profile sample_rows tables = Ok profile ->
  In (tname, tinfo) profile ->
  exists rows cols,
    In (tname, rows) sample_rows /\
    columns tinfo = Some cols /\
    forall cname stats,
      In (cname, stats) cols ->
      let series := pd.getitem (dataide.to_dataframe rows) cname in
      let hint := dataide.hinted_dtype
                    (dict_get (dataide.schema_by_table tables) tname) cname in
      (has_numeric_block stats = true <->
       (dataide.hint_is_numeric hint = true \/ pd.is_numeric_dtype series = true) /\
       pd.notna_any (dataide.coerce_numeric series) = true)
      /\ (pd.notna_any (dataide.coerce_numeric series) = false ->
          has_numeric_block stats = false).
Proof.
  intros Hrun Hin.
  destruct (compute_profile_entries _ _ _ Hrun _ _ Hin) as [rows [Hrows Htab]].
  exists rows.
  destruct rows as [| r rows].
  - rewrite table_profile_empty in Htab. inversion Htab. subst.
    exists []. split; [exact Hrows | split; [reflexivity |]]. intros ? ? [].
  - assert (Hne : r :: rows <> []) by discriminate.
    destruct (table_profile_columns _ _ _ Hne Htab) as (cols & _ & Hc & _ & Hcols).
    exists cols. split; [exact Hrows | split; [exact Hc |]].
    intros cname stats H. cbv zeta.
    destruct (Hcols _ _ H) as [_ Hstats].
    rewrite (has_numeric_block_gate _ _ _ _ Hstats). unfold numeric_gate.
    split.
    + rewrite andb_true_iff, orb_true_iff. tauto.
    + intros ->. apply andb_false_r.
Qed.

End NumericGate.

(** C1 as the claim states it fails: a column of numeric strings, with no
    schema hint, coerces to numbers and still gets no numeric block. *)
Lemma numeric_strings_get_no_block :
  exists stats,
    dataide.compute_profile (P := example_parsers) [("t", numeric_strings)] []
    = Ok [("t", mkTableInfo (Some 2) (Some [("a", stats)]) None)] /\
    pd.notna_any (dataide.coerce_numeric (P := example_parsers)
                    (pd.getitem (dataide.to_dataframe numeric_strings) "a")) = true /\
    has_numeric_block stats = false.
Proof. eexists. repeat split; vm_compute; reflexivity. Qed.

(** ** Order statistics *)

(** C6 at the floats [-1e308] and [1e308].  numpy's [_lerp] starts from
    [b - a], which overflows to [+inf]: the 25th percentile,
    [a + inf * 0.25], is [+inf], above the maximum, and the 50th and the
    75th, [b - inf * 0.5] and [b - inf * 0.25], are [-inf], below the
    minimum and below the 25th. *)
Theorem quantiles_out_of_order :
  exists stats,
    dataide.compute_profile (P := example_parsers) [("t", far_apart)] []
    = Ok [("t", mkTableInfo (Some 2) (Some [("a", stats)]) None)] /\
    dict_get stats "min" = Some (SFloat (double (- inject_Z (10 ^ 308)))) /\
    dict_get stats "p25" = Some (SFloat (Inf false)) /\
    dict_get stats "p50" = Some (SFloat (Inf true)) /\
    dict_get stats "p75" = Some (SFloat (Inf true)) /\
    dict_get stats "max" = Some (SFloat (double (inject_Z (10 ^ 308)))) /\
    ~ pyfloat_le (Inf false) (Inf true) /\
    ~ pyfloat_le (Inf false) (double (inject_Z (10 ^ 308))) /\
    ~ pyfloat_le (double (- inject_Z (10 ^ 308))) (Inf true).
Proof.
  eexists. repeat (split; [vm_compute; reflexivity |]).
  repeat split; vm_compute; tauto.
Qed.

(** The same on integers: in [int64] the difference of [-6e18] and [6e18]
    wraps around to a negative number, and the 25th percentile falls below
    the minimum, the 50th above the maximum. *)
Example percentiles_of_wrapping_integers :
  exists stats,
    dataide.compute_profile (P := example_parsers) [("t", far_apart_integers)] []
    = Ok [("t", mkTableInfo (Some 2) (Some [("a", stats)]) None)] /\
    dict_get stats "min" = Some (SFloat (Fin (inject_Z (-6 * 10 ^ 18)))) /\
    dict_get stats "p25" = Some (SFloat (Fin (inject_Z (-7611686018427387904)))) /\
    dict_get stats "p50" = Some (SFloat (Fin (inject_Z (2 ^ 63)))) /\
    dict_get stats "max" = Some (SFloat (Fin (inject_Z (6 * 10 ^ 18)))).
Proof.
  eexists. repeat (split; [vm_compute; reflexivity |]).
  vm_compute. reflexivity.
Qed.

(** ** The correlation block *)

Section CorrelationBlock.
Context {P : Parsers}.

Lemma dict_get_map_find {A V : Type} (key : A -> string) (g : A -> V)
      (l : list A) (k : string) :
  dict_get (map (fun x => (key x, g x)) l) k
  = option_map g (find (fun x => String.eqb (key x) k) l).
Proof.
  induction l as [| x l IH]; simpl; auto.
  destruct (String.eqb (key x) k); auto.
Qed.

Lemma find_label_mem {A : Type} (key : A -> string) (l : list A) (k : string) :
  mem_str k (map key l)
  = match find (fun x => String.eqb (key x) k) l with
    | Some _ => true
    | None => false
    end.
Proof.
  unfold mem_str. induction l as [| x l IH]; simpl; auto.
  rewrite (String.eqb_sym k (key x)). destruct (String.eqb (key x) k); auto.
Qed.

Lemma flat_map_single {A B : Type} (f : A -> B) (l : list A) :
  flat_map (fun x => [f x]) l = map f l.
Proof. induction l; simpl; congruence. Qed.

(** Reading [corr[a][b]] in the dict made from the rounded matrix: the cell
    of row [b], column [a]. *)
Lemma entry_to_dict (decimals : Z) (cols : dict pd.Series) (a b : string) :
  entry (pd.to_dict (pd.round decimals (pd.corr cols))) a b
  = match find (fun x => String.eqb (fst (snd x)) a) (pd.enumerate cols),
          find (fun x => String.eqb (fst (snd x)) b) (pd.enumerate cols) with
    | Some ja, Some jb => Some (pd.round_coef decimals (pd.corr_cell jb ja))
    | _, _ => None
    end.
Proof.
  set (E := pd.enumerate cols).
  set (label := fun x : nat * (string * pd.Series) => fst (snd x)).
  set (rc := pd.round_coef decimals).
  assert (HR : pd.round decimals (pd.corr cols)
               = map (fun ia => (label ia,
                                 map (fun jb => (label jb, rc (pd.corr_cell ia jb))) E))
                     E).
  { unfold pd.round, pd.corr. fold E. rewrite map_map. apply map_ext.
    intros ia. simpl. now rewrite map_map. }
  rewrite HR. clear HR.
  set (F := fun ia => (label ia,
                       map (fun jb => (label jb, rc (pd.corr_cell ia jb))) E)).
  assert (HF : forall ia, dict_keys (snd (F ia)) = map label E).
  { intros ia. unfold F, dict_keys. cbn [snd]. now rewrite map_map. }
  assert (Hkeys : forall l, (l = [] -> E = []) ->
                            match map F l with
                            | [] => []
                            | row :: _ => dict_keys (snd row)
                            end = map label E).
  { intros [| e l] Hl; [now rewrite Hl | apply HF]. }
  specialize (Hkeys E (fun H => H)).
  unfold entry, pd.to_dict.
  match goal with
  | |- context [dict_get (map _ ?ks) a] =>
      replace ks with (map label E) by (symmetry; exact Hkeys)
  end.
  clear Hkeys.
  rewrite dict_get_map_key, (find_label_mem label).
  change (find (fun x => String.eqb (fst (snd x)) a) E)
    with (find (fun x => String.eqb (label x) a) E).
  change (find (fun x => String.eqb (fst (snd x)) b) E)
    with (find (fun x => String.eqb (label x) b) E).
  destruct (find (fun x => String.eqb (label x) a) E) as [ja |] eqn:Fa; [| reflexivity].
  rewrite flat_map_concat_map, map_map, <- flat_map_concat_map.
  unfold F. cbn [fst snd].
  erewrite flat_map_ext.
  2: { intros ia. rewrite (dict_get_map_find label (fun jb => rc (pd.corr_cell ia jb))).
       rewrite Fa. cbn [option_map]. reflexivity. }
  rewrite (flat_map_single (fun ia => (label ia, rc (pd.corr_cell ia ja)))).
  rewrite (dict_get_map_find label (fun ia => rc (pd.corr_cell ia ja))).
  now destruct (find (fun x => String.eqb (label x) b) E).
Qed.





Lemma to_dict_keys (decimals : Z) (cols : dict pd.Series) :
  dict_keys (pd.to_dict (pd.round decimals (pd.corr cols)))
  = map (fun x => fst (snd x)) (pd.enumerate cols).
Proof.
  unfold pd.to_dict, dict_keys. rewrite map_map. cbn [fst]. rewrite map_id.
  unfold pd.round, pd.corr.
  destruct (pd.enumerate cols) as [| e E]; [reflexivity |].
  cbn [map fst snd]. rewrite !map_map. reflexivity.
Qed.

Lemma table_profile_correlation t_schema rows tinfo corr :
  dataide.table_profile t_schema rows = Ok tinfo ->
  correlation_pearson tinfo = Some corr ->
  corr = pd.to_dict (pd.round 3 (pd.corr (dataide.numeric_df (dataide.to_dataframe rows)))).
Proof.
  unfold dataide.table_profile.
  destruct (pd.len _ =? 0).
  - intros H. inversion H. discriminate.
  - destruct (for_each _ _ _) as [cols |]; cbn [bind]; [| discriminate].
    intros H. injection H as <-. cbn [correlation_pearson].
    destruct (List.length (dataide.numeric_df (dataide.to_dataframe rows)))
      as [| [| n]]; simpl; try discriminate.
    intros H'. now inversion H'.
Qed.

Lemma numeric_df_NoDup df : NoDup (dict_keys (dataide.numeric_df df)).
Proof.
  unfold dataide.numeric_df.
  assert (H : forall l acc,
             NoDup (dict_keys acc) ->
             NoDup (dict_keys
                      (fold_left
                         (fun acc col =>
                            let numeric_series :=
                              dataide.coerce_numeric (pd.getitem df col) in
                            if pd.notna_any numeric_series
                            then dict_set acc col numeric_series else acc) l acc))).
  { induction l as [| c l IH]; simpl; intros acc Hacc; auto.
    apply IH. destruct (pd.notna_any _); auto. now apply dict_keys_set_NoDup. }
  apply H. constructor.
Qed.

Lemma enumerate_labels {V : Type} (d : dict V) :
  map (fun x => fst (snd x)) (pd.enumerate d) = dict_keys d.
Proof.
  unfold pd.enumerate, dict_keys. generalize 0%nat.
  induction d as [| kv d IH]; simpl; intros n; f_equal; auto.
Qed.




End CorrelationBlock.


(** Nor is the diagonal 1.0 whenever the column varies: for
    [a = [1e100, 2e100]] the product [ssqdm_x * ssqdm_x] overflows, the
    divisor is [+inf], and the entry at [(a, a)] is 0.0. *)
Example overflowing_diagonal :
  exists corr cols,
    dataide.compute_profile (P := example_parsers) [("t", large_and_small)] []
    = Ok [("t", mkTableInfo (Some 2) (Some cols) (Some corr))] /\
    entry corr "a" "a" = Some (Fin 0) /\
    entry corr "b" "b" = Some (Fin 1).
Proof.
  eexists. eexists. repeat (split; [vm_compute; reflexivity |]).
  vm_compute. reflexivity.
Qed.

(** ** The flattener *)

Section Flattener.

Lemma filter_flat_map {A B : Type} (p : B -> bool) (f : A -> list B) (l : list A) :
  filter p (flat_map f l) = flat_map (fun x => filter p (f x)) l.
Proof.
  induction l as [| x l IH]; simpl; auto. now rewrite filter_app, IH.
Qed.

Lemma flat_map_nil {A B : Type} (f : A -> list B) (l : list A) :
  (forall x, In x l -> f x = []) -> flat_map f l = [].
Proof.
  induction l as [| x l IH]; simpl; intros H; auto.
  rewrite (H x) by auto. apply IH. auto.
Qed.

Lemma flat_map_ext_In {A B : Type} (f g : A -> list B) (l : list A) :
  (forall x, In x l -> f x = g x) -> flat_map f l = flat_map g l.
Proof.
  induction l as [| x l IH]; simpl; intros H; auto.
  rewrite (H x) by auto. f_equal. apply IH. auto.
Qed.

Lemma flat_map_map {A B C : Type} (f : B -> list C) (h : A -> B) (l : list A) :
  flat_map f (map h l) = flat_map (fun x => f (h x)) l.
Proof. induction l; simpl; congruence. Qed.

Lemma filter_none {A : Type} (p : A -> bool) (l : list A) :
  (forall x, In x l -> p x = false) -> filter p l = [].
Proof.
  induction l as [| x l IH]; simpl; intros H; auto.
  rewrite (H x) by auto. apply IH. auto.
Qed.

Lemma filter_all {A : Type} (p : A -> bool) (l : list A) :
  (forall x, In x l -> p x = true) -> filter p l = l.
Proof.
  induction l as [| x l IH]; simpl; intros H; auto.
  rewrite (H x) by auto. f_equal. apply IH. auto.
Qed.

(** In a list with distinct keys, only one item contributes to a selection
    that is empty on every other key. *)
Lemma flat_map_select {A B : Type} (key : A -> string) (f : A -> list B)
      (l : list A) (x : A) :
  NoDup (map key l) -> In x l ->
  (forall y, In y l -> key y <> key x -> f y = []) ->
  flat_map f l = f x.
Proof.
  induction l as [| y l IH]; simpl; intros Hnd Hin Hother; [tauto |].
  inversion Hnd as [| ? ? Hnot Hnd']. subst.
  destruct Hin as [-> | Hin].
  - rewrite (flat_map_nil f l); [apply app_nil_r |].
    intros y Hy. apply Hother; auto.
    intros E. apply Hnot. rewrite <- E. now apply in_map.
  - rewrite (Hother y) by (auto; intros E; apply Hnot; rewrite E; now apply in_map).
    simpl. apply IH; auto.
Qed.

Lemma table_rows_table tname tinfo r :
  In r (dataide.table_rows tname tinfo) -> table r = tname.
Proof.
  unfold dataide.table_rows. rewrite !in_app_iff. intros [H | [H | H]].
  - destruct H as [<- | []]. reflexivity.
  - unfold dataide.column_rows in H. apply in_flat_map in H.
    destruct H as [c [_ H]]. apply in_map_iff in H. destruct H as [kv [<- _]].
    reflexivity.
  - destruct (correlation_pearson tinfo) as [[| row corr] |]; try destruct H.
    unfold dataide.correlation_rows in H. apply in_flat_map in H.
    destruct H as [ia [_ H]]. apply in_flat_map in H. destruct H as [jb [_ H]].
    destruct (_ <=? _)%nat; [destruct H |].
    destruct (dict_get (match dict_get _ _ with Some r0 => r0 | None => [] end) _);
      [destruct H as [<- | []]; reflexivity | destruct H].
Qed.

(** The records of a table are those its own entry produced. *)
Lemma rows_of_table profile tname tinfo :
  NoDup (dict_keys profile) -> In (tname, tinfo) profile ->
  filter (fun r => String.eqb (table r) tname) (dataide.profile_to_rows profile)
  = dataide.table_rows tname tinfo.
Proof.
  intros Hnd Hin. unfold dataide.profile_to_rows. rewrite filter_flat_map.
  rewrite (flat_map_select fst _ profile (tname, tinfo) Hnd Hin).
  - apply filter_all. intros r Hr. simpl in Hr.
    rewrite (table_rows_table _ _ _ Hr). apply String.eqb_refl.
  - intros [t' i'] _ Hne. simpl in Hne. apply filter_none. intros r Hr.
    rewrite (table_rows_table _ _ _ Hr). simpl. now apply String.eqb_neq.
Qed.

Lemma upper_pairs_In (l : list string) (a b : string) :
  In (a, b) (upper_pairs l) -> In a l /\ In b l.
Proof.
  induction l as [| c l IH]; simpl; [tauto |].
  rewrite in_app_iff, in_map_iff. intros [[x [E Hx]] | H].
  - inversion E. subst. auto.
  - destruct (IH H). auto.
Qed.

(** The pairs are those of two positions [i < j]. *)
Lemma upper_pairs_spec (l : list string) (a b : string) :
  In (a, b) (upper_pairs l) <->
  exists i j, (i < j)%nat /\ nth_error l i = Some a /\ nth_error l j = Some b.
Proof.
  induction l as [| c l IH]; simpl.
  - split; [tauto |]. intros (i & j & _ & H & _). destruct i; discriminate.
  - rewrite in_app_iff, in_map_iff, IH. split.
    + intros [[x [E Hx]] | (i & j & Hij & Hi & Hj)].
      * inversion E. subst. apply In_nth_error in Hx. destruct Hx as [j Hj].
        exists 0%nat, (S j). repeat split; auto. lia.
      * exists (S i), (S j). repeat split; auto. lia.
    + intros (i & j & Hij & Hi & Hj). destruct j as [| j]; [lia |].
      destruct i as [| i]; simpl in Hi, Hj.
      * inversion Hi. subst. left. exists b. split; auto.
        eapply nth_error_In; eauto.
      * right. exists i, j. repeat split; auto. lia.
Qed.

(** With distinct columns, no pair is on the diagonal, and no pair comes
    with its mirror image. *)
Lemma upper_pairs_distinct (l : list string) (a b : string) :
  NoDup l -> In (a, b) (upper_pairs l) ->
  a <> b /\ ~ In (b, a) (upper_pairs l).
Proof.
  intros Hnd Hab. apply upper_pairs_spec in Hab.
  destruct Hab as (i & j & Hij & Hi & Hj).
  rewrite NoDup_nth_error in Hnd.
  assert (Hlen : forall n x, nth_error l n = Some x -> (n < List.length l)%nat).
  { intros n x H. apply nth_error_Some. congruence. }
  split.
  - intros ->. assert (i = j); [| lia].
    apply Hnd; [eapply Hlen; eauto | congruence].
  - intros Hba. apply upper_pairs_spec in Hba.
    destruct Hba as (i' & j' & Hij' & Hi' & Hj').
    assert (i' = j) by (apply Hnd; [eapply Hlen; eauto | congruence]).
    assert (j' = i) by (apply Hnd; [eapply Hlen; eauto | congruence]).
    lia.
Qed.

Lemma upper_pairs_NoDup (l : list string) : NoDup l -> NoDup (upper_pairs l).
Proof.
  induction 1 as [| a l Hnot Hnd IH]; simpl; [constructor |].
  apply NoDup_app.
  - apply Finite.Injective_map_NoDup; auto. intros x y E. now inversion E.
  - exact IH.
  - intros [x y] H1 H2. apply in_map_iff in H1. destruct H1 as [z [E _]].
    inversion E. subst. apply upper_pairs_In in H2. tauto.
Qed.

Lemma enumerate_from_snd {A : Type} (k : nat) (l : list A) :
  map snd (pd.enumerate_from k l) = l.
Proof. revert k. induction l; simpl; intros; f_equal; auto. Qed.

Lemma enumerate_from_ge {A : Type} (k : nat) (l : list A) (x : nat * A) :
  In x (pd.enumerate_from k l) -> (k <= fst x)%nat.
Proof.
  revert k. induction l as [| y l IH]; simpl; intros k; [tauto |].
  intros [<- | H]; simpl; [lia |]. apply IH in H. lia.
Qed.

(** The double loop with its [j <= i] guard visits [upper_pairs]. *)
Lemma double_loop {B : Type} (g : string -> string -> list B)
      (l : list string) (k : nat) (pre : list (nat * string)) :
  (forall x, In x pre -> (fst x < k)%nat) ->
  flat_map (fun ia =>
              flat_map (fun jb => if (fst jb <=? fst ia)%nat then []
                                  else g (snd ia) (snd jb))
                       (pre ++ pd.enumerate_from k l))
           (pd.enumerate_from k l)
  = flat_map (fun ab => g (fst ab) (snd ab)) (upper_pairs l).
Proof.
  revert k pre. induction l as [| a l IH]; intros k pre Hpre; [reflexivity |].
  cbn [pd.enumerate_from flat_map upper_pairs].
  rewrite (flat_map_app _ (map (fun b => (a, b)) l)), flat_map_map. cbn [fst snd].
  f_equal.
  - rewrite flat_map_app. cbn [flat_map fst snd]. rewrite Nat.leb_refl.
    rewrite (flat_map_nil _ pre).
    + cbn [app].
      rewrite (flat_map_ext_In _ (fun jb => g a (snd jb))).
      * rewrite <- (flat_map_map (fun b => g a b) snd).
        now rewrite enumerate_from_snd.
      * intros jb Hjb. apply enumerate_from_ge in Hjb.
        destruct (Nat.leb_spec (fst jb) k); [lia | reflexivity].
    + intros x Hx. apply Hpre in Hx.
      destruct (Nat.leb_spec (fst x) k); [reflexivity | lia].
  - specialize (IH (S k) (pre ++ [(k, a)])%list).
    rewrite <- app_assoc in IH. apply IH.
    intros x Hx. apply in_app_iff in Hx. destruct Hx as [Hx | [<- | []]].
    + apply Hpre in Hx. lia.
    + simpl. lia.
Qed.

End Flattener.

Section FlattenerRecords.

Lemma filter_andb {A : Type} (p q : A -> bool) (l : list A) :
  filter (fun x => andb (p x) (q x)) l = filter p (filter q l).
Proof.
  induction l as [| x l IH]; simpl; auto.
  destruct (q x); simpl; rewrite ?andb_true_r, ?andb_false_r;
    [destruct (p x) |]; now rewrite IH.
Qed.

Lemma filter_key_unique {V : Type} (l : dict V) (k : string) (v : V) :
  NoDup (dict_keys l) -> In (k, v) l ->
  filter (fun kv => String.eqb (fst kv) k) l = [(k, v)].
Proof.
  unfold dict_keys. induction l as [| [k0 v0] l IH]; simpl; intros Hnd Hin; [tauto |].
  inversion Hnd as [| ? ? Hnot Hnd']. subst.
  destruct Hin as [E | Hin].
  - inversion E. subst. rewrite String.eqb_refl. f_equal.
    apply filter_none. intros [k1 v1] H1. simpl. apply String.eqb_neq.
    intros ->. apply Hnot. apply (in_map fst) in H1. exact H1.
  - destruct (String.eqb_spec k0 k) as [-> | Hne]; [| now apply IH].
    exfalso. apply Hnot. apply (in_map fst) in Hin. exact Hin.
Qed.

Lemma column_rows_level tname cols r :
  In r (dataide.column_rows tname cols) -> level r = "column".
Proof.
  unfold dataide.column_rows. intros H. apply in_flat_map in H.
  destruct H as [c [_ H]]. apply in_map_iff in H. now destruct H as [kv [<- _]].
Qed.

(** The correlation records of a block: one per pair [i < j] that has a
    value. *)
Lemma correlation_rows_pairs tname corr :
  dataide.correlation_rows tname corr
  = flat_map (fun ab =>
                match entry corr (fst ab) (snd ab) with
                | Some val =>
                    [mkFlatRow "correlation" tname "" (fst ab ++ "~" ++ snd ab)
                               (VCorr val)]
                | None => []
                end)
             (upper_pairs (dict_keys corr)).
Proof.
  unfold dataide.correlation_rows, pd.enumerate.
  etransitivity.
  { exact (double_loop
             (fun a b =>
                match dict_get (match dict_get corr a with
                                | Some row => row
                                | None => []
                                end) b with
                | Some val =>
                    [mkFlatRow "correlation" tname "" (a ++ "~" ++ b) (VCorr val)]
                | None => []
                end)
             (dict_keys corr) 0 [] (fun x (H : In x []) => match H with end)). }
  apply flat_map_ext_In. intros [a b] _. unfold entry. cbn [fst snd].
  now destruct (dict_get corr a).
Qed.

Lemma correlation_rows_level tname corr r :
  In r (dataide.correlation_rows tname corr) -> level r = "correlation".
Proof.
  rewrite correlation_rows_pairs. intros H. apply in_flat_map in H.
  destruct H as [ab [_ H]]. destruct (entry corr _ _); [| destruct H].
  now destruct H as [<- | []].
Qed.

Lemma correlation_rows_complete tname corr :
  complete_block corr ->
  dataide.correlation_rows tname corr
  = map (fun ab => mkFlatRow "correlation" tname "" (fst ab ++ "~" ++ snd ab)
                             (VCorr (entry_value corr (fst ab) (snd ab))))
        (upper_pairs (dict_keys corr)).
Proof.
  intros Hfull. rewrite correlation_rows_pairs, <- flat_map_single.
  apply flat_map_ext_In. intros [a b] Hab. cbn [fst snd].
  apply upper_pairs_In in Hab. destruct Hab as [Ha Hb].
  unfold entry_value. pose proof (Hfull a b Ha Hb) as Hne.
  destruct (entry corr a b); [reflexivity | congruence].
Qed.

Lemma correlation_part_level tname tinfo r :
  In r (correlation_part tname tinfo) -> level r = "correlation".
Proof.
  unfold correlation_part.
  destruct (correlation_pearson tinfo) as [[| row corr] |]; try (intros []).
  apply correlation_rows_level.
Qed.

(** The records of a table, level by level. *)
Lemma table_rows_levels tname tinfo :
  filter (fun r => String.eqb (level r) "table") (dataide.table_rows tname tinfo)
  = [mkFlatRow "table" tname "" "row_count"
               (VStat (SInt (match row_count tinfo with Some n => n | None => 0 end)))]
  /\ filter (fun r => String.eqb (level r) "column") (dataide.table_rows tname tinfo)
     = dataide.column_rows tname (match columns tinfo with Some c => c | None => [] end)
  /\ filter (fun r => String.eqb (level r) "correlation") (dataide.table_rows tname tinfo)
     = correlation_part tname tinfo.
Proof.
  unfold dataide.table_rows. fold (correlation_part tname tinfo).
  rewrite !filter_app. cbn [filter level String.eqb Ascii.eqb Bool.eqb].
  set (cols := match columns tinfo with Some c => c | None => [] end).
  assert (Hc : forall lv, lv <> "column" ->
                          filter (fun r => String.eqb (level r) lv)
                                 (dataide.column_rows tname cols) = []).
  { intros lv Hlv. apply filter_none. intros r Hr.
    rewrite (column_rows_level _ _ _ Hr). apply String.eqb_neq. congruence. }
  assert (Hr : forall lv, lv <> "correlation" ->
                          filter (fun r => String.eqb (level r) lv)
                                 (correlation_part tname tinfo) = []).
  { intros lv Hlv. apply filter_none. intros r Hr.
    rewrite (correlation_part_level _ _ _ Hr). apply String.eqb_neq. congruence. }
  rewrite (Hc "table"), (Hc "correlation"), (Hr "table"), (Hr "column")
    by discriminate.
  repeat split.
  - cbn [app]. rewrite app_nil_r. apply filter_all. intros r Hr'.
    rewrite (column_rows_level _ _ _ Hr'). reflexivity.
  - cbn [app]. apply filter_all. intros r Hr'.
    rewrite (correlation_part_level _ _ _ Hr'). reflexivity.
Qed.

Lemma filter_row_is lv profile tname tinfo :
  NoDup (dict_keys profile) -> In (tname, tinfo) profile ->
  filter (row_is lv tname) (dataide.profile_to_rows profile)
  = filter (fun r => String.eqb (level r) lv) (dataide.table_rows tname tinfo).
Proof.
  intros Hnd Hin. unfold row_is.
  rewrite (filter_andb (fun r => String.eqb (level r) lv)
                       (fun r => String.eqb (table r) tname)).
  now rewrite (rows_of_table _ _ _ Hnd Hin).
Qed.

(** C8.  In the flattened output of a profiling summary, each table has
    exactly one table-level record, that of [row_count]; exactly one
    column-level record for each stat key of each column profile, and no
    other; and, when there is a correlation block, exactly one
    correlation-level record, named [a~b], for each pair of columns at
    positions [i < j] of the block: never the diagonal, never the mirrored
    pair. *)
Theorem flattener_records profile tname tinfo :
  well_formed_summary profile ->
  In (tname, tinfo) profile ->
  filter (row_is "table" tname) (dataide.profile_to_rows profile)
  = [mkFlatRow "table" tname "" "row_count"
               (VStat (SInt (match row_count tinfo with Some n => n | None => 0 end)))]
  /\
  (forall cols col cstats k v,
      columns tinfo = Some cols -> In (col, cstats) cols -> In (k, v) cstats ->
      filter (fun r => andb (andb (String.eqb (column r) col)
                                  (String.eqb (metric r) k))
                            (row_is "column" tname r))
             (dataide.profile_to_rows profile)
      = [mkFlatRow "column" tname col k (VStat v)])
  /\
  (forall r,
      In r (dataide.profile_to_rows profile) ->
      row_is "column" tname r = true ->
      exists cols cstats v,
        columns tinfo = Some cols /\ In (column r, cstats) cols /\
        In (metric r, v) cstats /\ value r = VStat v)
  /\
  (forall corr,
      correlation_pearson tinfo = Some corr ->
      filter (row_is "correlation" tname) (dataide.profile_to_rows profile)
      = map (fun ab => mkFlatRow "correlation" tname "" (fst ab ++ "~" ++ snd ab)
                                 (VCorr (entry_value corr (fst ab) (snd ab))))
            (upper_pairs (dict_keys corr))
      /\ NoDup (upper_pairs (dict_keys corr))
      /\ forall a b,
          In (a, b) (upper_pairs (dict_keys corr)) <->
          (exists i j, (i < j)%nat /\ nth_error (dict_keys corr) i = Some a
                       /\ nth_error (dict_keys corr) j = Some b)
          /\ a <> b /\ ~ In (b, a) (upper_pairs (dict_keys corr)))
  /\
  (correlation_pearson tinfo = None ->
   filter (row_is "correlation" tname) (dataide.profile_to_rows profile) = []).
Proof.
  intros [Hnd Hwf] Hin. destruct (Hwf _ _ Hin) as [Hcols Hcorr].
  destruct (table_rows_levels tname tinfo) as (Ht & Hc & Hr).
  split; [| split; [| split; [| split]]].
  - now rewrite (filter_row_is _ _ _ _ Hnd Hin).
  - intros cols col cstats k v Ecols Hcol Hk.
    destruct (Hcols _ Ecols) as [Hnd1 Hnd2].
    rewrite (filter_andb (fun r => andb (String.eqb (column r) col)
                                        (String.eqb (metric r) k))
                         (row_is "column" tname)).
    rewrite (filter_row_is _ _ _ _ Hnd Hin), Hc, Ecols.
    unfold dataide.column_rows. rewrite filter_flat_map.
    rewrite (flat_map_select fst _ cols (col, cstats) Hnd1 Hcol).
    + cbn [fst snd].
      rewrite <- (map_map (fun kv => (fst kv, snd kv))
                          (fun kv => mkFlatRow "column" tname col (fst kv) (VStat (snd kv)))).
      assert (Hid : map (fun kv : string * stat => (fst kv, snd kv)) cstats = cstats).
      { rewrite <- (map_id cstats) at 2. apply map_ext. now intros []. }
      rewrite Hid.
      assert (Hf : forall l : dict stat,
                 filter (fun r => andb (String.eqb (column r) col)
                                       (String.eqb (metric r) k))
                        (map (fun kv => mkFlatRow "column" tname col (fst kv)
                                                  (VStat (snd kv))) l)
                 = map (fun kv => mkFlatRow "column" tname col (fst kv)
                                            (VStat (snd kv)))
                       (filter (fun kv => String.eqb (fst kv) k) l)).
      { induction l as [| kv l IH]; simpl; auto.
        rewrite String.eqb_refl. simpl.
        destruct (String.eqb (fst kv) k); simpl; now rewrite IH. }
      rewrite Hf, (filter_key_unique cstats k v (Hnd2 _ _ Hcol) Hk). reflexivity.
    + intros [c' s'] _ Hne. simpl in Hne. apply filter_none. intros r Hr'.
      apply in_map_iff in Hr'. destruct Hr' as [kv [<- _]]. simpl.
      apply andb_false_intro1. now apply String.eqb_neq.
  - intros r Hr' Hrow.
    assert (Hin' : In r (filter (row_is "column" tname)
                                (dataide.profile_to_rows profile))).
    { apply filter_In. auto. }
    rewrite (filter_row_is _ _ _ _ Hnd Hin), Hc in Hin'.
    destruct (columns tinfo) as [cols |]; [| destruct Hin'].
    unfold dataide.column_rows in Hin'. apply in_flat_map in Hin'.
    destruct Hin' as [[c cstats] [Hc' Hkv]]. apply in_map_iff in Hkv.
    destruct Hkv as [[k v] [<- Hkv]]. simpl. exists cols, cstats, v. auto.
  - intros corr Ecorr. destruct (Hcorr _ Ecorr) as [Hnd3 Hfull].
    split; [| split].
    + rewrite (filter_row_is _ _ _ _ Hnd Hin), Hr.
      unfold correlation_part. rewrite Ecorr.
      destruct corr as [| row corr]; [reflexivity |].
      now apply correlation_rows_complete.
    + now apply upper_pairs_NoDup.
    + intros a b. split.
      * intros Hab. split; [now apply upper_pairs_spec |].
        now apply upper_pairs_distinct.
      * intros [Hab _]. now apply upper_pairs_spec.
  - intros Ecorr. rewrite (filter_row_is _ _ _ _ Hnd Hin), Hr.
    unfold correlation_part. now rewrite Ecorr.
Qed.

End FlattenerRecords.

(** ** Chart suggestions *)

Section Charts.
Context {P : Parsers}.

Lemma fold_left_append {A B : Type} (g : A -> list B) (l : list A) (acc : list B) :
  fold_left (fun charts item => (charts ++ g item)%list) l acc
  = (acc ++ flat_map g l)%list.
Proof.
  revert acc. induction l as [| x l IH]; simpl; intros acc.
  - now rewrite app_nil_r.
  - now rewrite IH, app_assoc.
Qed.

Lemma find_first {A : Type} (p : A -> bool) (l : list A) (x : A) :
  find p l = Some x ->
  exists pre post,
    l = (pre ++ x :: post)%list /\ p x = true /\ forall y, In y pre -> p y = false.
Proof.
  induction l as [| a l IH]; simpl; [discriminate |].
  destruct (p a) eqn:E.
  - intros H. inversion H. subst. exists [], l. repeat split; auto.
    intros y [].
  - intros H. destruct (IH H) as (pre & post & -> & Hx & Hpre).
    exists (a :: pre), post. repeat split; auto.
    intros y [<- | Hy]; auto.
Qed.

Lemma suggest_charts_flat sample_rows :
  dataide.suggest_charts sample_rows = firstn 6 (flat_map charts_of sample_rows).
Proof.
  unfold dataide.suggest_charts. f_equal.
  rewrite <- (app_nil_l (flat_map charts_of sample_rows)).
  rewrite <- fold_left_append. generalize (@nil SuggestedChart) as acc.
  induction sample_rows as [| [t rows] l IH]; simpl; intros acc; auto.
  rewrite <- IH. unfold charts_of. simpl.
  destruct rows; [now rewrite app_nil_r | reflexivity].
Qed.

(** A line suggestion of a table comes after the table's histogram, which
    is on the line's [y] column. *)
Lemma table_charts_line table_name rows c :
  In c (dataide.table_charts table_name rows) ->
  sc_kind c = "line" ->
  exists n d h rest,
    dataide.first_numeric (dataide.to_dataframe rows) = Some n /\
    dataide.first_date (dataide.to_dataframe rows) = Some d /\
    dataide.table_charts table_name rows = h :: rest /\
    sc_kind h = "hist" /\ sc_table h = table_name /\ sc_x h = n /\
    sc_table c = table_name /\ sc_x c = d /\ sc_y c = Some n.
Proof.
  unfold dataide.table_charts.
  destruct (dataide.first_numeric _) as [n |].
  - destruct (dataide.first_date _) as [d |].
    + intros Hin Hk. exists n, d. eexists. eexists.
      split; [reflexivity |]. split; [reflexivity |].
      split; [reflexivity |]. cbn [sc_kind sc_table sc_x].
      repeat (split; [reflexivity |]).
      cbn [app] in Hin. destruct Hin as [<- | Hin]; [discriminate |].
      apply in_app_iff in Hin. destruct Hin as [Hin | Hin].
      * destruct (dataide.first_categorical _); [| destruct Hin].
        destruct Hin as [<- | []]. discriminate.
      * destruct (andb _ _); [| destruct Hin].
        destruct Hin as [<- | []]. repeat split.
    + intros Hin Hk. exfalso. cbn [app] in Hin.
      destruct Hin as [<- | Hin]; [discriminate |].
      rewrite app_nil_r in Hin.
      destruct (dataide.first_categorical _); [| destruct Hin].
      destruct Hin as [<- | []]. discriminate.
  - intros Hin Hk. exfalso. cbn [app] in Hin.
    assert (Hline : match dataide.first_date (dataide.to_dataframe rows) with
                    | Some _ | _ => @nil SuggestedChart
                    end = []) by (now destruct (dataide.first_date _)).
    rewrite Hline, app_nil_r in Hin.
    destruct (dataide.first_categorical _); [| destruct Hin].
    destruct Hin as [<- | []]. discriminate.
Qed.

Lemma firstn_subset {A : Type} (n : nat) (x : A) (l : list A) :
  In x (firstn n l) -> In x l.
Proof.
  intros H. rewrite <- (firstn_skipn n l). apply in_app_iff. now left.
Qed.

Lemma firstn_first {A : Type} (n : nat) (x y : A) (l : list A) :
  In y (firstn n (x :: l)) -> In x (firstn n (x :: l)).
Proof. destruct n; simpl; auto. Qed.

Lemma line_after_hist (n : nat) sample_rows c :
  In c (firstn n (flat_map charts_of sample_rows)) ->
  sc_kind c = "line" ->
  exists h rows col,
    In h (firstn n (flat_map charts_of sample_rows)) /\
    In (sc_table c, rows) sample_rows /\
    dataide.first_numeric (dataide.to_dataframe rows) = Some col /\
    dataide.first_date (dataide.to_dataframe rows) = Some (sc_x c) /\
    sc_kind h = "hist" /\ sc_table h = sc_table c /\
    sc_x h = col /\ sc_y c = Some col.
Proof.
  revert n. induction sample_rows as [| [t rows] l IH]; intros n Hin Hk.
  - simpl in Hin. rewrite firstn_nil in Hin. destruct Hin.
  - cbn [flat_map] in *. rewrite firstn_app in *.
    apply in_app_iff in Hin. destruct Hin as [Hin | Hin].
    + assert (Hseg : In c (charts_of (t, rows))) by (eapply firstn_subset; eauto).
      unfold charts_of in Hseg, Hin |- *. cbn [fst snd] in *.
      destruct rows as [| r rows]; [destruct Hseg |].
      destruct (table_charts_line _ _ _ Hseg Hk)
        as (col & d & h & rest & Hn & Hd & Hch & Hh1 & Hh2 & Hh3 & Hc1 & Hc2 & Hc3).
      exists h, (r :: rows), col. rewrite Hch in *.
      repeat split; auto; try congruence.
      * apply in_app_iff. left. eapply firstn_first; eauto.
      * left. congruence.
    + destruct (IH _ Hin Hk) as (h & rows' & col & Hh & Hrows & Hrest).
      exists h, rows', col. split; [| split; [right; exact Hrows | exact Hrest]].
      apply in_app_iff. now right.
Qed.

(** C10.  A line suggestion of [suggest_charts] comes with a histogram
    suggestion for the same table, and the line's [y] column is the
    histogram's [x] column: the first column of the table, in column
    order, whose numeric coercion yields a non-null value.  The line's [x]
    is the first column whose name contains "date" and that has a parsable
    date, chosen without regard to [y]: when that column is also the first
    numeric one, it is paired with itself. *)
Theorem line_has_histogram sample_rows c :
  In c (dataide.suggest_charts sample_rows) ->
  sc_kind c = "line" ->
  exists h rows col,
    In h (dataide.suggest_charts sample_rows) /\
    In (sc_table c, rows) sample_rows /\
    dataide.first_numeric (dataide.to_dataframe rows) = Some col /\
    dataide.first_date (dataide.to_dataframe rows) = Some (sc_x c) /\
    sc_kind h = "hist" /\ sc_table h = sc_table c /\
    sc_x h = col /\ sc_y c = Some col /\
    (dataide.first_date (dataide.to_dataframe rows) = Some col ->
     sc_y c = Some (sc_x c)) /\
    let df := dataide.to_dataframe rows in
    let numeric := fun column =>
      pd.notna_any (dataide.coerce_numeric (pd.getitem df column)) in
    let dated := fun column =>
      andb (str_contains "date" (lower column))
           (pd.dt_notna_any (dataide.coerce_datetime (pd.getitem df column))) in
    (exists pre post,
        pd.columns df = (pre ++ col :: post)%list /\
        numeric col = true /\ forall y, In y pre -> numeric y = false) /\
    (exists pre post,
        pd.columns df = (pre ++ sc_x c :: post)%list /\
        dated (sc_x c) = true /\ forall y, In y pre -> dated y = false).
Proof.
  rewrite suggest_charts_flat. intros Hin Hk.
  destruct (line_after_hist 6 _ _ Hin Hk)
    as (h & rows & col & H1 & H2 & H3 & H4 & H5 & H6 & H7 & H8).
  exists h, rows, col. repeat split; auto.
  - intros Hd. rewrite Hd in H4. inversion H4. congruence.
  - apply (find_first _ _ _ H3).
  - apply (find_first _ _ _ H4).
Qed.

End Charts.

(** ** The two copies *)

(** C9.  The functions of [main.py] and those of the package return the
    same output on every input. *)
Theorem duplicates_agree {P : Parsers} :
  (forall sample_rows tables,
      main.compute_profile sample_rows tables
      = dataide.compute_profile sample_rows tables) /\
  (forall sample_rows,
      main.suggest_charts sample_rows = dataide.suggest_charts sample_rows) /\
  (forall profile, main.profile_to_rows profile = dataide.profile_to_rows profile).
Proof. repeat split. Qed.

(** ** Top values *)

Section TopValues.
Context {P : Parsers}.

(** What the profile of an [object] column holds under [top_values]: the
    five first counts of the stringified cells, all cells included. *)
Lemma top_values_block df t_schema c stats :
  dataide.column_stats df t_schema c = Ok stats ->
  dict_get stats "top_values"
  = if pd.dtype_eqb (pd.s_dtype (pd.getitem df c)) pd.object
    then match pd.head 5 (pd.value_counts (pd.astype_str (pd.getitem df c))) with
         | [] => None
         | vc => Some (SCounts vc)
         end
    else None.
Proof.
  unfold dataide.column_stats. intros H.
  destruct (dataide.add_numeric _ _ _) as [stats1 |] eqn:E; simpl in H; [| discriminate].
  inversion H. clear H. unfold dataide.add_top_values.
  assert (Hnone : dict_get (dataide.add_dates (dataide.hinted_dtype t_schema c) c
                              (pd.getitem df c) stats1) "top_values" = None).
  { rewrite add_dates_other by discriminate.
    rewrite (add_numeric_other _ _ _ _ _ E) by (simpl; intuition discriminate).
    reflexivity. }
  destruct (pd.dtype_eqb _ _); auto.
  destruct (pd.head 5 _) as [| kv vc]; simpl; auto.
  apply dict_get_set_same.
Qed.

Lemma insert_desc_In kv l x :
  In x (pd.insert_desc kv l) <-> x = kv \/ In x l.
Proof.
  induction l as [| y l IH]; simpl; [intuition |].
  destruct (snd y <=? snd kv); simpl; rewrite ?IH; intuition.
Qed.

(** Each count of [value_counts] is the number of cells that read so. *)
Lemma value_counts_count (l : list string) (k : string) (n : Z) :
  In (k, n) (pd.value_counts l) -> n = pd.count_str k l.
Proof.
  unfold pd.value_counts, pd.tally.
  induction (pd.unique_by String.eqb l) as [| x u IH]; simpl; [tauto |].
  rewrite insert_desc_In. intros [E | H]; auto. now inversion E.
Qed.

End TopValues.

(** C2 at a column with a null.  [astype(str)] turns [None] into the text
    ["None"] before [value_counts(dropna=True)] runs, so the null is
    counted like any value. *)
Theorem top_values_count_null :
  exists stats,
    dataide.compute_profile (P := example_parsers) [("t", text_with_null)] []
    = Ok [("t", mkTableInfo (Some 2) (Some [("b", stats)]) None)] /\
    dict_get stats "nulls" = Some (SInt 1) /\
    dict_get stats "top_values" = Some (SCounts [("x", 1); ("None", 1)]).
Proof. eexists. repeat split; vm_compute; reflexivity. Qed.

(** ** Exceptions *)

Section Raising.
Context {P : Parsers}.

Lemma to_numeric_dtype s :
  pd.s_dtype s <> pd.bool_ -> pd.s_dtype (pd.to_numeric s) <> pd.bool_.
Proof.
  unfold pd.to_numeric. intros H.
  destruct (pd.s_dtype s) eqn:E; try (rewrite E; discriminate); [| congruence].
  cbn [pd.s_dtype]. now destruct (existsb _ _).
Qed.

Lemma quantile_returns s q :
  pd.s_dtype s <> pd.bool_ -> exists f, pd.quantile s q = Ok f.
Proof.
  unfold pd.quantile. intros H. destruct (pd.valid s); [eauto |].
  destruct (pd.s_dtype s); eauto. congruence.
Qed.

Lemma column_stats_returns df t_schema c :
  pd.s_dtype (pd.getitem df c) <> pd.bool_ ->
  exists stats, dataide.column_stats df t_schema c = Ok stats.
Proof.
  intros Hd. unfold dataide.column_stats, dataide.add_numeric.
  destruct (orb _ _); [| simpl; eauto].
  destruct (pd.notna_any _); [| simpl; eauto].
  unfold dataide.numeric_block, dataide.coerce_numeric.
  pose proof (to_numeric_dtype _ Hd) as Hn.
  destruct (quantile_returns _ (1 # 4) Hn) as [p25 ->].
  destruct (quantile_returns _ (1 # 2) Hn) as [p50 ->].
  destruct (quantile_returns _ (3 # 4) Hn) as [p75 ->].
  simpl. eauto.
Qed.

(** Without a column of booleans, [compute_profile] returns. *)
Lemma compute_profile_returns sample_rows tables :
  (forall tname rows c,
      In (tname, rows) sample_rows ->
      pd.s_dtype (pd.getitem (dataide.to_dataframe rows) c) <> pd.bool_) ->
  exists profile, dataide.compute_profile sample_rows tables = Ok profile.
Proof.
  intros Hno. unfold dataide.compute_profile.
  apply for_each_returns. intros profile [tname rows] Hin. cbn [fst snd].
  assert (Ht : exists tinfo,
             dataide.table_profile (dict_get (dataide.schema_by_table tables) tname)
                                   rows = Ok tinfo).
  { unfold dataide.table_profile. destruct (pd.len _ =? 0); [eauto |].
    destruct (for_each_returns
                (fun acc column_name =>
                   stats <- dataide.column_stats (dataide.to_dataframe rows)
                              (dict_get (dataide.schema_by_table tables) tname)
                              column_name ;;
                   Ok (dict_set acc column_name stats))
                (pd.columns (dataide.to_dataframe rows))) with (s := @nil (string * dict stat))
      as [cols Hcols].
    - intros acc c _.
      destruct (column_stats_returns (dataide.to_dataframe rows)
                  (dict_get (dataide.schema_by_table tables) tname) c
                  (Hno _ _ _ Hin)) as [stats ->].
      simpl. eauto.
    - rewrite Hcols. simpl. eauto. }
  destruct Ht as [tinfo ->]. simpl. eauto.
Qed.

(** A frame column of booleans makes the column profile raise. *)
Lemma bool_column_raises rows t_schema c :
  rows <> [] ->
  pd.s_dtype (pd.getitem (pd.DataFrame rows) c) = pd.bool_ ->
  dataide.column_stats (pd.DataFrame rows) t_schema c = Raise TypeError.
Proof.
  intros Hrows Hd. rewrite getitem_DataFrame in Hd.
  assert (Hcol : pd.getitem (pd.DataFrame rows) c = pd.column rows c).
  { rewrite getitem_DataFrame. destruct (mem_str c _); [reflexivity | discriminate]. }
  destruct (mem_str c _); [| discriminate].
  unfold dataide.column_stats, dataide.add_numeric. rewrite Hcol.
  unfold pd.is_numeric_dtype. rewrite Hd, orb_true_r.
  unfold dataide.coerce_numeric, pd.to_numeric. rewrite Hd.
  assert (Hbools : forallb pd.is_bool (pd.s_values (pd.column rows c)) = true
                   /\ pd.s_values (pd.column rows c) <> []).
  { unfold pd.column in *. cbn [pd.s_dtype pd.s_values] in *.
    set (raw := map (fun r => pd.cell r c) rows) in *.
    assert (Hraw : raw <> []) by (subst raw; destruct rows; [congruence | discriminate]).
    assert (Hall : forallb pd.is_bool raw = true).
    { unfold pd.infer_dtype in Hd.
      destruct (existsb pd.is_str raw); [discriminate |].
      destruct (existsb pd.is_bool raw).
      - destruct (forallb pd.is_bool raw); [reflexivity | discriminate].
      - repeat match type of Hd with
               | (if ?b then _ else _) = _ => destruct b; try discriminate
               end. }
    rewrite Hd. split.
    - clear - Hall. induction raw as [| v raw IH]; simpl in *; auto.
      apply andb_true_iff in Hall. destruct Hall as [Hv Hall].
      rewrite IH by auto. destruct v; simpl in *; auto; discriminate.
    - destruct raw; [congruence | discriminate]. }
  destruct Hbools as [Hall Hne].
  assert (Hany : pd.notna_any (pd.column rows c) = true).
  { unfold pd.notna_any. destruct (pd.s_values (pd.column rows c)) as [| v vs];
      [congruence |]. simpl in *. destruct v; simpl in *; auto; discriminate. }
  rewrite Hany. unfold dataide.numeric_block, pd.quantile.
  assert (Hvalid : pd.valid (pd.column rows c) <> []).
  { unfold pd.valid. destruct (pd.s_values (pd.column rows c)) as [| v vs];
      [congruence |]. simpl in *. destruct v; simpl in *; discriminate. }
  destruct (pd.valid (pd.column rows c)); [congruence |].
  rewrite Hd. reflexivity.
Qed.

End Raising.

(** C4 at a table with a column of booleans: [is_numeric_dtype] accepts
    the [bool] column, [coerce_numeric] returns it as it is, and
    [numeric.quantile(0.25)] raises. *)
Theorem boolean_column_raises :
  dataide.compute_profile (P := example_parsers) [("t", one_flag)] []
  = Raise TypeError.
Proof. vm_compute. reflexivity. Qed.

(** ** What [compute_profile] returns is a well-formed summary *)

Section WellFormed.
Context {P : Parsers}.

Lemma dict_update_NoDup {V : Type} (e d : dict V) :
  NoDup (dict_keys d) -> NoDup (dict_keys (dict_update d e)).
Proof.
  unfold dict_update. revert d.
  induction e as [| [k v] e IH]; simpl; intros d H; auto.
  apply IH. now apply dict_keys_set_NoDup.
Qed.

Lemma column_stats_NoDup df t_schema c stats :
  dataide.column_stats df t_schema c = Ok stats -> NoDup (dict_keys stats).
Proof.
  unfold dataide.column_stats. intros H.
  destruct (dataide.add_numeric _ _ _) as [stats1 |] eqn:E; simpl in H; [| discriminate].
  inversion H. clear H.
  assert (Hs1 : NoDup (dict_keys stats1)).
  { unfold dataide.add_numeric in E.
    assert (Hb : NoDup (dict_keys (dataide.base_stats df (pd.getitem df c)))).
    { unfold dataide.base_stats. simpl.
      repeat constructor; simpl; intuition discriminate. }
    destruct (orb _ _); [| inversion E; subst; auto].
    destruct (pd.notna_any _); [| inversion E; subst; auto].
    destruct (dataide.numeric_block _); simpl in E; [| discriminate].
    inversion E. now apply dict_update_NoDup. }
  unfold dataide.add_top_values, dataide.add_dates.
  assert (Hs2 : NoDup (dict_keys
                        (if orb (dataide.hint_is_date (dataide.hinted_dtype t_schema c))
                                (str_contains "date" (lower c))
                         then
                           if pd.dt_notna_any (dataide.coerce_datetime (pd.getitem df c))
                           then dict_update stats1
                                  [("min_date",
                                    SStr (date_iso (pd.dt_min
                                      (dataide.coerce_datetime (pd.getitem df c)))));
                                   ("max_date",
                                    SStr (date_iso (pd.dt_max
                                      (dataide.coerce_datetime (pd.getitem df c)))))]
                           else stats1
                         else stats1))).
  { destruct (orb _ _); auto. destruct (pd.dt_notna_any _); auto.
    now apply dict_update_NoDup. }
  destruct (pd.dtype_eqb _ _); auto. destruct (0 <? _); auto.
  now apply dict_keys_set_NoDup.
Qed.

Lemma corr_block_well_formed (decimals : Z) (cols : dict pd.Series) :
  NoDup (dict_keys cols) ->
  NoDup (dict_keys (pd.to_dict (pd.round decimals (pd.corr cols)))) /\
  complete_block (pd.to_dict (pd.round decimals (pd.corr cols))).
Proof.
  intros Hnd. split.
  - now rewrite to_dict_keys, enumerate_labels.
  - intros a b Ha Hb. rewrite to_dict_keys in Ha, Hb. rewrite entry_to_dict.
    apply mem_str_In in Ha, Hb. rewrite find_label_mem in Ha, Hb.
    destruct (find _ _); [| discriminate].
    destruct (find _ _); [discriminate | discriminate].
Qed.

(** A summary returned by [compute_profile] has distinct keys at every
    level and full correlation blocks. *)
Lemma compute_profile_well_formed sample_rows tables profile :
  dataide.compute_profile sample_rows tables = Ok profile ->
  well_formed_summary profile.
Proof.
  intros Hrun. split.
  - unfold dataide.compute_profile in Hrun.
    eapply (stored_keys_NoDup
              (fun item => dataide.table_profile
                             (dict_get (dataide.schema_by_table tables) (fst item))
                             (snd item)) fst); [exact Hrun | constructor].
  - intros tname tinfo Hin.
    destruct (compute_profile_entries _ _ _ Hrun _ _ Hin) as [rows [_ Htab]].
    split.
    + intros cols Hc. destruct rows as [| r rows].
      * rewrite table_profile_empty in Htab. inversion Htab. subst.
        simpl in Hc. inversion Hc. split; [constructor | intros ? ? []].
      * assert (Hne : r :: rows <> []) by discriminate.
        destruct (table_profile_columns _ _ _ Hne Htab)
          as (cols' & _ & Hc' & Hnd & Hcols).
        rewrite Hc in Hc'. inversion Hc'. subst cols'. split; auto.
        intros c cstats Hcs. destruct (Hcols _ _ Hcs) as [_ Hstats].
        eapply column_stats_NoDup; eauto.
    + intros corr Hcorr.
      rewrite (table_profile_correlation _ _ _ _ Htab Hcorr).
      apply corr_block_well_formed, numeric_df_NoDup.
Qed.

End WellFormed.

(** ** The theorems at work on the sample data *)

Lemma empty_table_profile_witness :
  dict_get [("t", mkTableInfo (Some 0) (Some []) None)] "t"
  = Some (mkTableInfo (Some 0) (Some []) None).
Proof.
  apply (empty_table_profile (P := example_parsers) [("t", [])] []
           [("t", mkTableInfo (Some 0) (Some []) None)] "t").
  - repeat constructor. simpl. tauto.
  - left. reflexivity.
  - vm_compute. reflexivity.
Defined.

Lemma null_accounting_witness :
  exists n cols,
    row_count scenario_a_info = Some n /\
    columns scenario_a_info = Some cols /\
    forall cname stats,
      In (cname, stats) cols ->
      exists non_null nulls,
        dict_get stats "non_null" = Some (SInt non_null) /\
        dict_get stats "nulls" = Some (SInt nulls) /\
        non_null + nulls = n /\
        dict_get stats "null_pct"
        = Some (SFloat (Fin (if n =? 0 then 0%Q
                             else (inject_Z nulls / inject_Z n)%Q))).
Proof.
  apply (null_accounting (P := example_parsers) scenario_a scenario_a_tables
           scenario_a_profile "t" scenario_a_info).
  - vm_compute. reflexivity.
  - left. reflexivity.
Defined.

Lemma numeric_block_gated_witness :
  exists rows cols,
    In ("t", rows) scenario_a /\
    columns scenario_a_info = Some cols /\
    forall cname stats,
      In (cname, stats) cols ->
      let series := pd.getitem (dataide.to_dataframe rows) cname in
      let hint := dataide.hinted_dtype
                    (dict_get (dataide.schema_by_table scenario_a_tables) "t") cname in
      (has_numeric_block stats = true <->
       (dataide.hint_is_numeric hint = true \/ pd.is_numeric_dtype series = true) /\
       pd.notna_any (dataide.coerce_numeric (P := example_parsers) series) = true)
      /\ (pd.notna_any (dataide.coerce_numeric (P := example_parsers) series) = false ->
          has_numeric_block stats = false).
Proof.
  apply (numeric_block_gated (P := example_parsers) scenario_a scenario_a_tables
           scenario_a_profile "t" scenario_a_info).
  - vm_compute. reflexivity.
  - left. reflexivity.
Defined.


Lemma flattener_records_witness :
  filter (row_is "table" "t") (dataide.profile_to_rows scenario_c_profile)
  = [mkFlatRow "table" "t" "" "row_count" (VStat (SInt 4))]
  /\ filter (row_is "correlation" "t") (dataide.profile_to_rows scenario_c_profile)
     = [mkFlatRow "correlation" "t" "" "a~b" (VCorr (double (994 # 1000)))].
Proof.
  destruct (flattener_records scenario_c_profile "t" scenario_c_info)
    as (Htable & _ & _ & Hcorr & _).
  - apply (compute_profile_well_formed (P := example_parsers) scenario_c []).
    vm_compute. reflexivity.
  - left. reflexivity.
  - split; [exact Htable |].
    destruct (Hcorr scenario_c_corr eq_refl) as [Hrows _]. exact Hrows.
Defined.

Lemma line_has_histogram_witness :
  exists h rows col,
    In h (dataide.suggest_charts (P := example_parsers) scenario_e) /\
    In (sc_table scenario_e_line, rows) scenario_e /\
    dataide.first_numeric (P := example_parsers) (dataide.to_dataframe rows) = Some col /\
    dataide.first_date (P := example_parsers) (dataide.to_dataframe rows)
    = Some (sc_x scenario_e_line) /\
    sc_kind h = "hist" /\ sc_table h = sc_table scenario_e_line /\
    sc_x h = col /\ sc_y scenario_e_line = Some col /\
    (dataide.first_date (P := example_parsers) (dataide.to_dataframe rows) = Some col ->
     sc_y scenario_e_line = Some (sc_x scenario_e_line)) /\
    let df := dataide.to_dataframe rows in
    let numeric := fun column =>
      pd.notna_any (dataide.coerce_numeric (P := example_parsers)
                      (pd.getitem df column)) in
    let dated := fun column =>
      andb (str_contains "date" (lower column))
           (pd.dt_notna_any (dataide.coerce_datetime (P := example_parsers)
                               (pd.getitem df column))) in
    (exists pre post,
        pd.columns df = (pre ++ col :: post)%list /\
        numeric col = true /\ forall y, In y pre -> numeric y = false) /\
    (exists pre post,
        pd.columns df = (pre ++ sc_x scenario_e_line :: post)%list /\
        dated (sc_x scenario_e_line) = true /\
        forall y, In y pre -> dated y = false).
Proof.
  apply (line_has_histogram (P := example_parsers) scenario_e scenario_e_line).
  - vm_compute. right. right. left. reflexivity.
  - reflexivity.
Defined.

(** A column named [date] that holds integers is both the date column and
    the first numeric column: the line suggestion plots it against
    itself. *)
Example date_column_against_itself :
  dataide.suggest_charts (P := example_parsers) numeric_date
  = [mkSuggestedChart "t.date — distribution" "hist" "t" "date" None None;
     mkSuggestedChart "t: date over date" "line" "t" "date" (Some "date") None].
Proof. vm_compute. reflexivity. Qed.

(** Scenario C of the specification: perfectly correlated columns. *)
Example perfect_correlation :
  pd.round_coef 3
    (pd.pearson (pd.mkSeries pd.int64 [PInt 1; PInt 2; PInt 3; PInt 4])
                (pd.mkSeries pd.int64 [PInt 2; PInt 4; PInt 6; PInt 8]))
  = Fin 1.
Proof. vm_compute. reflexivity. Qed.
